(** * Account lifecycle of the ORiem Capital backend

    A shallow embedding of [app/services/account_service.py] together with
    the parts of [app/schemas/account_schema.py], [app/models/account_model.py],
    [app/routers/account_router.py] and [app/database.py] it relies on,
    followed by the properties of the account service.

    Conventions of the embedding:
    - a Python [Decimal] is a finite decimal number, a coefficient and an
      exponent (pydantic rejects NaN and the infinities for a Decimal field);
    - a Python [str] is a [string], the UTF-8 encoding of its characters;
    - the database rounds a balance to the two decimals of its column when a
      row is inserted;
    - the SQLAlchemy session is explicit state: the engine's committed rows,
      the rows as the unit of work sees them, and the log of the session
      methods that were called.  A Python reference to an ORM object is the
      position of its row in the unit of work;
    - whether a [db.commit()] succeeds, and which way it rounds a balance
      that lies halfway between two hundredths, is decided by the database,
      so every service function that commits takes the outcome of that commit
      as an argument. *)

From Stdlib Require Import ZArith Ascii String DecimalString.
From stdpp Require Import base decidable option list strings gmap.

Local Open Scope string_scope.
Local Open Scope Z_scope.

(** ** decimal.Decimal *)

Record Decimal : Type := mkDecimal { coefficient : Z; exponent : Z }.

(** The number a [Decimal] denotes is [coefficient * 10 ^ exponent]; two
    decimals are compared after scaling both to the smaller exponent. *)
Definition Decimal_compare (x y : Decimal) : comparison :=
  let e := Z.min (exponent x) (exponent y) in
  Z.compare (coefficient x * 10 ^ (exponent x - e)) (coefficient y * 10 ^ (exponent y - e)).

Definition Decimal_ltb (x y : Decimal) : bool :=
  match Decimal_compare x y with Lt => true | _ => false end.

Definition Decimal_leb (x y : Decimal) : bool :=
  match Decimal_compare x y with Gt => false | _ => true end.

Definition Decimal_eqb (x y : Decimal) : bool :=
  match Decimal_compare x y with Eq => true | _ => false end.

Definition Decimal_zero : Decimal := mkDecimal 0 0.

(** [round_half_even n d] is the integer nearest to [n / d], ties going to the
    even neighbour (the rounding of Python's format specification). *)
Definition round_half_even (n d : Z) : Z :=
  let q := n / d in
  let r := n mod d in
  match Z.compare (2 * r) d with
  | Lt => q
  | Gt => q + 1
  | Eq => if Z.even q then q else q + 1
  end.

Definition digits (n : Z) : string :=
  NilZero.string_of_uint (N.to_uint (Z.to_N n)).

(** [format(d, ".2f")]: the value rounded to hundredths, printed with exactly
    two fractional digits. *)
Definition format_2f (d : Decimal) : string :=
  let hundredths :=
    if 0 <=? exponent d + 2
    then Z.abs (coefficient d) * 10 ^ (exponent d + 2)
    else round_half_even (Z.abs (coefficient d)) (10 ^ (- (exponent d + 2))) in
  let frac := hundredths mod 100 in
  (if coefficient d <? 0 then "-" else EmptyString)
    ++ digits (hundredths / 100) ++ "."
    ++ (if frac <? 10 then "0" else EmptyString) ++ digits frac.

(** ** str.lower *)

Definition ascii_lower (c : ascii) : ascii :=
  let n := N_of_ascii c in
  if ((65 <=? n) && (n <=? 90))%N then ascii_of_N (n + 32) else c.

(** [str.lower] on the UTF-8 encoding: an ASCII capital becomes its small
    letter, and the Kelvin sign U+212A (bytes E2 84 AA) becomes [k].  These
    are all the characters whose lower case is an ASCII letter, so [lower s]
    is [s.lower()] whenever [s.lower()] is an ASCII string, and is not an
    ASCII string otherwise: the other characters, whose lower case lies
    outside ASCII, are kept as they are. *)
Fixpoint lower (s : string) : string :=
  match s with
  | EmptyString => EmptyString
  | String c s' =>
      match c, s' with
      | "226"%char, String "132"%char (String "170"%char s'') =>
          String "k"%char (lower s'')
      | _, _ => String (ascii_lower c) (lower s')
      end
  end.

(** ** app/models/account_model.py *)

(** A row of the [accounts] table, which is also the ORM object.  [id] is
    [None] until the object has been flushed and the primary key assigned. *)
Record Account : Type := mkAccount {
  id : option Z;
  user_id : Z;
  account_type : string;
  balance : Decimal;
  status : string;
  nickname : option string
}.

(** [Numeric(precision=12, scale=2)], the column of [balance]: the value the
    database keeps for a decimal, which has two decimals.  A value between
    two hundredths becomes the nearer one; halfway between them the backend
    decides, [tie_up] telling whether it takes the upper one. *)
Definition Numeric_12_2 (tie_up : bool) (d : Decimal) : Decimal :=
  let k := exponent d + 2 in
  if 0 <=? k then mkDecimal (coefficient d * 10 ^ k) (-2)
  else
    let q := 10 ^ (- k) in
    let h := coefficient d / q in
    match Z.compare (2 * (coefficient d mod q)) q with
    | Lt => mkDecimal h (-2)
    | Gt => mkDecimal (h + 1) (-2)
    | Eq => mkDecimal (if tie_up then h + 1 else h) (-2)
    end.

(** The row the database keeps for an object that is inserted. *)
Definition stored_as (tie_up : bool) (a : Account) : Account :=
  mkAccount (id a) (user_id a) (account_type a) (Numeric_12_2 tie_up (balance a))
    (status a) (nickname a).

(** ** app/schemas/account_schema.py *)

Definition AccountType : list string := ["checking"; "savings"].
Definition AccountStatus : list string := ["active"; "frozen"; "closed"].

Record AccountCreate : Type := mkAccountCreate {
  create_account_type : string;
  create_nickname : option string;
  initial_deposit : Decimal
}.

Record AccountUpdate : Type := mkAccountUpdate {
  update_nickname : option string;
  update_status : option string
}.

(** A field of a JSON request body: absent, [null], or a value. *)
Inductive field (A : Type) : Type :=
| Omitted
| Null
| Value (a : A).
Arguments Omitted {A}.
Arguments Null {A}.
Arguments Value {A} a.

Record AccountCreateBody : Type := mkAccountCreateBody {
  body_account_type : field string;
  body_create_nickname : field string;
  body_initial_deposit : field Decimal
}.

Record AccountUpdateBody : Type := mkAccountUpdateBody {
  body_nickname : field string;
  body_status : field string
}.

(** [Optional[str] = Field(None, ...)]: an absent field takes the default
    [None], and [null] is [None] as well. *)
Definition optional_with_default {A : Type} (f : field A) : option A :=
  match f with
  | Omitted => None
  | Null => None
  | Value a => Some a
  end.

(** Validation by the [AccountCreate] model: [account_type] must be a value
    of the [AccountType] enumeration, [initial_deposit] is required and must
    satisfy [gt=0].  [None] stands for a validation error. *)
Definition validate_AccountCreate (b : AccountCreateBody) : option AccountCreate :=
  match body_account_type b, body_initial_deposit b with
  | Value t, Value d =>
      if bool_decide (t ∈ AccountType) && Decimal_ltb Decimal_zero d
      then Some (mkAccountCreate t (optional_with_default (body_create_nickname b)) d)
      else None
  | _, _ => None
  end.

(** Validation by the [AccountUpdate] model: [status: Optional[AccountStatus]]
    has no default, so the field must be present (the repository runs
    pydantic 2, see [app/config.py]); it is [null] or a value of the
    [AccountStatus] enumeration. *)
Definition validate_AccountUpdate (b : AccountUpdateBody) : option AccountUpdate :=
  match body_status b with
  | Omitted => None
  | Null => Some (mkAccountUpdate (optional_with_default (body_nickname b)) None)
  | Value st =>
      if bool_decide (st ∈ AccountStatus)
      then Some (mkAccountUpdate (optional_with_default (body_nickname b)) (Some st))
      else None
  end.

(** ** Exceptions *)

(** The errors a commit can raise ([sqlalchemy.exc]); [IntegrityError] is the
    only one the service names. *)
Inductive db_error : Type :=
| IntegrityError
| DataError
| OperationalError.

#[global] Instance db_error_eq_dec : EqDecision db_error.
Proof. solve_decision. Defined.

Inductive exn : Type :=
| ValueError (msg : string)
| HTTPException (status_code : Z) (detail : string)
| RequestValidationError
| DBAPIError (e : db_error)
| InvalidRequestError.

Inductive result (A : Type) : Type :=
| Return (a : A)
| Raise (e : exn).
Arguments Return {A} a.
Arguments Raise {A} e.

(** ** app/database.py: the engine and the session *)

(** What the database holds once a transaction has committed: the rows of
    [accounts] and the next value of the primary-key sequence. *)
Record Database : Type := mkDatabase {
  accounts : list Account;
  next_id : Z
}.

Inductive db_call : Type :=
| CallQuery
| CallAdd
| CallCommit
| CallRefresh
| CallRollback.

(** A session: the database it is bound to, the rows as the unit of work sees
    them (committed rows overlaid with the changes not yet committed, new
    objects at the end), and the session methods called so far. *)
Record Session : Type := mkSession {
  bind : Database;
  unit_of_work : list Account;
  calls : list db_call
}.

Definition SessionLocal (db : Database) : Session :=
  mkSession db (accounts db) [].

(** The outcome of one [db.commit()], decided by the database: the commit
    succeeds, a balance halfway between two hundredths going to the lower
    one ([Committed]) or to the upper one ([CommittedTieUp]), or it fails. *)
Inductive commit_outcome : Type :=
| Committed
| Failed (e : db_error)
| CommittedTieUp.

Definition tie_up (o : commit_outcome) : bool :=
  match o with
  | CommittedTieUp => true
  | _ => false
  end.

(** Code that runs against a session and returns or raises. *)
Definition M (A : Type) : Type := Session → result A * Session.

#[global] Instance M_ret : MRet M := λ A a s, (Return a, s).

#[global] Instance M_bind : MBind M := λ A B f m s,
  match m s with
  | (Return a, s') => f a s'
  | (Raise e, s') => (Raise e, s')
  end.

Definition raise {A : Type} (e : exn) : M A := λ s, (Raise e, s).

(** [try: body / except <handled>: handler]: [handler e] is [None] for an
    exception the clause does not catch. *)
Definition try_except {A : Type} (body : M A) (handler : exn → option (M A)) : M A :=
  λ s,
    match body s with
    | (Return a, s') => (Return a, s')
    | (Raise e, s') =>
        match handler e with
        | Some h => h s'
        | None => (Raise e, s')
        end
    end.

Definition logged (c : db_call) (s : Session) : list db_call := calls s ++ [c].

(** [db.query(Account).filter(P).first()]: a reference to the first row that
    satisfies [P], [None] when there is none.  The filter runs over the rows
    as the unit of work holds them; every service function queries before it
    assigns anything, so in a request these are the committed rows. *)
Definition db_query_first (P : Account → Prop) `{!∀ a, Decision (P a)} : M (option nat) :=
  λ s, (Return (fst <$> list_find P (unit_of_work s)),
        mkSession (bind s) (unit_of_work s) (logged CallQuery s)).

(** [db.query(Account).filter(P).all()] *)
Definition db_query_all (P : Account → Prop) `{!∀ a, Decision (P a)} : M (list Account) :=
  λ s, (Return (filter P (unit_of_work s)),
        mkSession (bind s) (unit_of_work s) (logged CallQuery s)).

(** [db.add(account)]: the object joins the unit of work; the reference to it
    is returned. *)
Definition db_add (account : Account) : M nat :=
  λ s, (Return (length (unit_of_work s)),
        mkSession (bind s) (unit_of_work s ++ [account]) (logged CallAdd s)).

Definition with_id (a : Account) (n : Z) : Account :=
  mkAccount (Some n) (user_id a) (account_type a) (balance a) (status a) (nickname a).

(** The flush of a commit: every new object receives the next primary key. *)
Fixpoint flush (rows : list Account) (n : Z) : list Account * Z :=
  match rows with
  | [] => ([], n)
  | a :: rows' =>
      match id a with
      | Some _ => let '(r, n') := flush rows' n in (a :: r, n')
      | None => let '(r, n') := flush rows' (n + 1) in (with_id a n :: r, n')
      end
  end.

(** The rows of a unit of work as the database keeps them: the objects
    added to the session, which follow the [k] rows the database had, are
    inserted; the rows before them keep their balance, an UPDATE writing
    nickname and status only. *)
Definition inserted (tie_up : bool) (k : nat) (rows : list Account) : list Account :=
  (take k rows ++ (stored_as tie_up <$> drop k rows))%list.

(** [db.commit()]: on success the unit of work is flushed and becomes the
    committed state; on failure the session rolls the transaction back, so
    that the database keeps its state and the unit of work loses what was
    not committed, and the error is raised. *)
Definition db_commit (o : commit_outcome) : M unit :=
  λ s,
    match o with
    | Failed e =>
        (Raise (DBAPIError e), mkSession (bind s) (accounts (bind s)) (logged CallCommit s))
    | _ =>
        let '(flushed, n) := flush (unit_of_work s) (next_id (bind s)) in
        let rows := inserted (tie_up o) (length (accounts (bind s))) flushed in
        (Return (), mkSession (mkDatabase rows n) rows (logged CallCommit s))
    end.

(** [db.refresh(account)]: the object is loaded again from its row. *)
Definition db_refresh (account : nat) : M unit :=
  λ s,
    match accounts (bind s) !! account with
    | Some row =>
        (Return (), mkSession (bind s) (<[account := row]> (unit_of_work s)) (logged CallRefresh s))
    | None =>
        (Raise InvalidRequestError, mkSession (bind s) (unit_of_work s) (logged CallRefresh s))
    end.

(** [db.rollback()]: the uncommitted changes are dropped. *)
Definition db_rollback : M unit :=
  λ s, (Return (), mkSession (bind s) (accounts (bind s)) (logged CallRollback s)).

(** Reading the object behind a reference (what [return account] hands to the
    caller). *)
Definition deref (account : nat) : M Account :=
  λ s,
    match unit_of_work s !! account with
    | Some a => (Return a, s)
    | None => (Raise InvalidRequestError, s)
    end.

Definition with_nickname (x : option string) (a : Account) : Account :=
  mkAccount (id a) (user_id a) (account_type a) (balance a) (status a) x.

Definition with_status (x : string) (a : Account) : Account :=
  mkAccount (id a) (user_id a) (account_type a) (balance a) x (nickname a).

(** [account.nickname = x] and [account.status = x]: attribute assignment on
    the object in the unit of work. *)
Definition set_nickname (account : nat) (x : option string) : M unit :=
  λ s, (Return (), mkSession (bind s) (alter (with_nickname x) account (unit_of_work s)) (calls s)).

Definition set_status (account : nat) (x : string) : M unit :=
  λ s, (Return (), mkSession (bind s) (alter (with_status x) account (unit_of_work s)) (calls s)).

(** ** app/services/account_service.py *)

Module account_service.

Definition MINIMUM_DEPOSITS : gmap string Decimal :=
  {[ "checking" := mkDecimal 2500 (-2); "savings" := mkDecimal 10000 (-2) ]}.

Definition except_IntegrityError {A : Type} (handler : M A) (e : exn) : option (M A) :=
  match e with
  | DBAPIError IntegrityError => Some handler
  | _ => None
  end.

(** [Account.id == account_id, Account.user_id == user_id]: the filter of the
    three single-account queries. *)
Definition owned (user account_id : Z) (a : Account) : Prop :=
  id a = Some account_id ∧ user_id a = user.

#[global] Instance owned_dec user account_id a : Decision (owned user account_id a).
Proof. unfold owned. apply _. Defined.

Definition create_account (user : Z) (data : AccountCreate) (o : commit_outcome) : M Account :=
  let type := lower (create_account_type data) in
  match MINIMUM_DEPOSITS !! type with
  | None => raise (ValueError "Invalid account type. Must be 'checking' or 'savings'.")
  | Some min_required =>
      if Decimal_ltb (initial_deposit data) min_required
      then raise (ValueError ("Minimum deposit for " ++ type ++ " account is $"
                                ++ format_2f min_required ++ "."))
      else
        account ← db_add {| id := None;
                            user_id := user;
                            account_type := type;
                            balance := initial_deposit data;
                            nickname := create_nickname data;
                            status := "active" |};
        try_except (db_commit o;; db_refresh account)
          (except_IntegrityError
             (db_rollback;; raise (HTTPException 400 "Account could not be created.")));;
        deref account
  end.

Definition get_user_accounts (user : Z) : M (list Account) :=
  db_query_all (λ a, user_id a = user ∧ status a ≠ "closed").

Definition not_found {A : Type} : M A :=
  raise (HTTPException 404 "Account not found.").

Definition get_account_by_id (user account_id : Z) : M Account :=
  found ← db_query_first (owned user account_id);
  match found with
  | None => not_found
  | Some account => deref account
  end.

Definition update_account (user account_id : Z) (data : AccountUpdate)
    (o : commit_outcome) : M Account :=
  found ← db_query_first (owned user account_id);
  match found with
  | None => not_found
  | Some account =>
      match update_nickname data with
      | Some x => set_nickname account (Some x)
      | None => mret ()
      end;;
      match update_status data with
      | Some x =>
          if bool_decide (x ∈ ["active"; "frozen"; "closed"])
          then set_status account x
          else raise (HTTPException 400 "Invalid status.")
      | None => mret ()
      end;;
      db_commit o;;
      db_refresh account;;
      deref account
  end.

Definition delete_account (user account_id : Z) (o : commit_outcome) : M unit :=
  found ← db_query_first (owned user account_id);
  match found with
  | None => not_found
  | Some account =>
      set_status account "closed";;
      db_commit o
  end.

End account_service.

(** ** app/routers/account_router.py *)

Module account_router.

(** [Depends(get_db)]: the endpoint runs in a session of its own, which is
    closed when the request ends; what was not committed is lost. *)
Definition get_db {A : Type} (endpoint : M A) (db : Database) : result A * Database :=
  let '(r, s) := endpoint (SessionLocal db) in (r, bind s).

Definition create_account (current_user : Z) (data : AccountCreateBody)
    (o : commit_outcome) (db : Database) : result Account * Database :=
  match validate_AccountCreate data with
  | None => (Raise RequestValidationError, db)
  | Some data => get_db (account_service.create_account current_user data o) db
  end.

Definition get_user_accounts (current_user : Z) (db : Database)
    : result (list Account) * Database :=
  get_db (account_service.get_user_accounts current_user) db.

Definition get_account_by_id (current_user account_id : Z) (db : Database)
    : result Account * Database :=
  get_db (account_service.get_account_by_id current_user account_id) db.

Definition update_account (current_user account_id : Z) (data : AccountUpdateBody)
    (o : commit_outcome) (db : Database) : result Account * Database :=
  match validate_AccountUpdate data with
  | None => (Raise RequestValidationError, db)
  | Some data => get_db (account_service.update_account current_user account_id data o) db
  end.

Definition delete_account (current_user account_id : Z) (o : commit_outcome)
    (db : Database) : result unit * Database :=
  get_db (account_service.delete_account current_user account_id o) db.

End account_router.

(** ** Requests *)

(** One request of an authenticated caller, with the outcome of the commit it
    leads to. *)
Inductive request : Type :=
| POST_accounts (current_user : Z) (data : AccountCreateBody) (o : commit_outcome)
| GET_accounts (current_user : Z)
| GET_account (current_user account_id : Z)
| PUT_account (current_user account_id : Z) (data : AccountUpdateBody) (o : commit_outcome)
| DELETE_account (current_user account_id : Z) (o : commit_outcome).

(** The database after the application has served a request. *)
Definition serve (db : Database) (req : request) : Database :=
  match req with
  | POST_accounts u data o => (account_router.create_account u data o db).2
  | GET_accounts u => (account_router.get_user_accounts u db).2
  | GET_account u a => (account_router.get_account_by_id u a db).2
  | PUT_account u a data o => (account_router.update_account u a data o db).2
  | DELETE_account u a o => (account_router.delete_account u a o db).2
  end.

Definition serve_all (db : Database) (reqs : list request) : Database :=
  foldl serve db reqs.

(** A request that asks for the status [closed]: a DELETE, or a PUT whose body
    carries [status = "closed"]. *)
Definition requests_closed (req : request) : bool :=
  match req with
  | DELETE_account _ _ _ => true
  | PUT_account _ _ data _ =>
      match body_status data with
      | Value x => bool_decide (x = "closed")
      | _ => false
      end
  | _ => false
  end.

(** Every stored row carries its primary key. *)
Definition stored (db : Database) : Prop :=
  Forall (λ a, is_Some (id a)) (accounts db).

(** ** Auxiliary definitions for the properties *)

(** The object [create_account] builds before it is added to the session. *)
Definition new_account (user : Z) (data : AccountCreate) : Account :=
  {| id := None;
     user_id := user;
     account_type := lower (create_account_type data);
     balance := initial_deposit data;
     nickname := create_nickname data;
     status := "active" |}.

(** What [update_account] assigns to the object it found. *)
Definition apply_update (data : AccountUpdate) (a : Account) : Account :=
  let a1 := match update_nickname data with
            | Some x => with_nickname (Some x) a
            | None => a
            end in
  match update_status data with
  | Some x => with_status x a1
  | None => a1
  end.

(** The session after a successful commit of a unit of work [rows] to which
    nothing was added. *)
Definition committed_session (s : Session) (rows : list Account) (log : list db_call) : Session :=
  let flushed := flush rows (next_id (bind s)) in
  mkSession (mkDatabase flushed.1 flushed.2) flushed.1 log.

(** The decimal has at most two decimals: it is a whole number of
    hundredths. *)
Definition two_decimals (d : Decimal) : bool :=
  (0 <=? exponent d + 2) || (coefficient d mod 10 ^ (- (exponent d + 2)) =? 0).

(** Every account that is closed in [rows'] was closed in [rows], at the same
    position. *)
Definition closed_before (rows rows' : list Account) : Prop :=
  ∀ i a', rows' !! i = Some a' → status a' = "closed" →
          ∃ a, rows !! i = Some a ∧ status a = "closed".

(** The authenticated caller of a request. *)
Definition requester (req : request) : Z :=
  match req with
  | POST_accounts u _ _ => u
  | GET_accounts u => u
  | GET_account u _ => u
  | PUT_account u _ _ _ => u
  | DELETE_account u _ _ => u
  end.

(** The primary key of [accounts]: every row has one, no two rows share one,
    and the sequence is ahead of all of them. *)
Definition primary_key (db : Database) : Prop :=
  stored db
  ∧ NoDup (id <$> accounts db)
  ∧ ∀ a k, a ∈ accounts db → id a = Some k → k < next_id db.

(** * Properties *)

Import account_service.

(** ** Decimal comparison *)

Lemma Decimal_compare_antisym (x y : Decimal) :
  Decimal_compare y x = CompOpp (Decimal_compare x y).
Proof.
  unfold Decimal_compare. rewrite (Z.min_comm (exponent y) (exponent x)).
  apply Z.compare_antisym.
Qed.

Lemma Decimal_ltb_leb (x y : Decimal) :
  Decimal_ltb x y = negb (Decimal_leb y x).
Proof.
  unfold Decimal_ltb, Decimal_leb. rewrite (Decimal_compare_antisym x y).
  by destruct (Decimal_compare x y).
Qed.

Lemma Decimal_compare_refl (x : Decimal) : Decimal_compare x x = Eq.
Proof. unfold Decimal_compare. apply Z.compare_refl. Qed.

Lemma Decimal_nonpositive (d : Decimal) :
  Decimal_leb d Decimal_zero = true → coefficient d ≤ 0.
Proof.
  unfold Decimal_leb, Decimal_compare.
  set (e := exponent d `min` exponent Decimal_zero).
  assert (0 < 10 ^ (exponent d - e)) by (apply Z.pow_pos_nonneg; lia).
  destruct (Z.compare_spec (coefficient d * 10 ^ (exponent d - e))
                           (coefficient Decimal_zero * 10 ^ (exponent Decimal_zero - e)))
    as [Heq|Hlt|Hgt]; simpl in *; try done; nia.
Qed.

Lemma Decimal_nonpositive_below (d m : Decimal) :
  Decimal_leb d Decimal_zero = true → 0 < coefficient m → Decimal_ltb d m = true.
Proof.
  intros Hd%Decimal_nonpositive Hm.
  unfold Decimal_ltb, Decimal_compare.
  set (e := exponent d `min` exponent m).
  assert (0 < 10 ^ (exponent d - e)) by (apply Z.pow_pos_nonneg; lia).
  assert (0 < 10 ^ (exponent m - e)) by (apply Z.pow_pos_nonneg; lia).
  destruct (Z.compare_spec (coefficient d * 10 ^ (exponent d - e))
                           (coefficient m * 10 ^ (exponent m - e))); try done; nia.
Qed.

Lemma Decimal_compare_same_exponent (c1 c2 e : Z) :
  Decimal_compare (mkDecimal c1 e) (mkDecimal c2 e) = Z.compare c1 c2.
Proof.
  unfold Decimal_compare. simpl. rewrite Z.min_id, Z.sub_diag. simpl.
  by rewrite !Z.mul_1_r.
Qed.

(** The comparison sees the number, not its representation: [c * 10 ^ e] and
    [(10 * c) * 10 ^ (e - 1)] compare alike with every decimal. *)
Lemma Decimal_compare_rescale (c e : Z) (y : Decimal) :
  Decimal_compare (mkDecimal (10 * c) (e - 1)) y = Decimal_compare (mkDecimal c e) y.
Proof.
  unfold Decimal_compare. simpl.
  destruct (Z.le_gt_cases e (exponent y)) as [Hle|Hgt].
  - rewrite (Z.min_l (e - 1)), (Z.min_l e) by lia.
    replace (e - 1 - (e - 1)) with 0 by lia. replace (e - e) with 0 by lia.
    replace (exponent y - (e - 1)) with (Z.succ (exponent y - e)) by lia.
    rewrite Z.pow_succ_r by lia. simpl.
    rewrite !Z.mul_1_r.
    replace (coefficient y * (10 * 10 ^ (exponent y - e)))
      with (10 * (coefficient y * 10 ^ (exponent y - e))) by lia.
    destruct (Z.compare_spec c (coefficient y * 10 ^ (exponent y - e)));
      [apply Z.compare_eq_iff|apply Z.compare_lt_iff|apply Z.compare_gt_iff]; lia.
  - rewrite (Z.min_r (e - 1)), (Z.min_r e) by lia.
    replace (e - exponent y) with (Z.succ (e - 1 - exponent y)) by lia.
    rewrite Z.pow_succ_r by lia. f_equal. lia.
Qed.

(** ** The minimum-deposit table *)

Lemma MINIMUM_DEPOSITS_checking :
  MINIMUM_DEPOSITS !! "checking" = Some (mkDecimal 2500 (-2)).
Proof. reflexivity. Qed.

Lemma MINIMUM_DEPOSITS_savings :
  MINIMUM_DEPOSITS !! "savings" = Some (mkDecimal 10000 (-2)).
Proof. reflexivity. Qed.

Lemma MINIMUM_DEPOSITS_None (k : string) :
  MINIMUM_DEPOSITS !! k = None ↔ k ∉ AccountType.
Proof.
  unfold MINIMUM_DEPOSITS, AccountType.
  rewrite lookup_insert_None, lookup_singleton_None, !not_elem_of_cons.
  pose proof (not_elem_of_nil k).
  split; [intros [? ?]|intros (? & ? & _)]; repeat split; congruence.
Qed.

(** ** Flush *)

Lemma flush_Forall2 (rows : list Account) : ∀ n,
  Forall2 (λ a b, b = a ∨ ∃ k, id a = None ∧ b = with_id a k) rows (flush rows n).1.
Proof.
  induction rows as [|a rows IH]; intros n; simpl; [constructor|].
  destruct (id a) eqn:Hid.
  - specialize (IH n). destruct (flush rows n). constructor; auto.
  - specialize (IH (n + 1)). destruct (flush rows (n + 1)). constructor; eauto.
Qed.

Lemma flush_fmap {B : Type} (f : Account → B) (rows : list Account) (n : Z) :
  (∀ a k, f (with_id a k) = f a) → f <$> (flush rows n).1 = f <$> rows.
Proof.
  intros Hf. pose proof (flush_Forall2 rows n) as H.
  induction H as [|a b l k Hab _ IH]; [done|].
  rewrite !fmap_cons, IH. f_equal.
  destruct Hab as [->|(? & _ & ->)]; auto.
Qed.

Lemma flush_stored (rows : list Account) (n : Z) :
  Forall (λ a, is_Some (id a)) rows → flush rows n = (rows, n).
Proof.
  induction 1 as [|a rows [k Hk] _ IH]; simpl; [done|].
  by rewrite Hk, IH.
Qed.

Lemma flush_is_Some (rows : list Account) : ∀ n,
  Forall (λ a, is_Some (id a)) (flush rows n).1.
Proof.
  induction rows as [|a rows IH]; intros n; simpl; [constructor|].
  destruct (id a) eqn:Hid.
  - specialize (IH n). destruct (flush rows n). constructor; eauto.
  - specialize (IH (n + 1)). destruct (flush rows (n + 1)). constructor; eauto.
Qed.

Lemma flush_length (rows : list Account) (n : Z) :
  length (flush rows n).1 = length rows.
Proof. symmetry. eapply Forall2_length, flush_Forall2. Qed.

(** ** The service functions, step by step *)

Ltac run_service :=
  unfold account_router.get_db, create_account, get_user_accounts, get_account_by_id,
    update_account, delete_account, not_found, raise, try_except, except_IntegrityError,
    db_query_first, db_query_all, db_add, db_commit, db_refresh, db_rollback, deref,
    set_nickname, set_status, logged, SessionLocal, mbind, M_bind, mret, M_ret;
  simpl.

Lemma get_account_by_id_missing (user account_id : Z) (s : Session) :
  Forall (λ a, ¬ owned user account_id a) (unit_of_work s) →
  get_account_by_id user account_id s
  = (Raise (HTTPException 404 "Account not found."),
     mkSession (bind s) (unit_of_work s) (calls s ++ [CallQuery])).
Proof.
  intros H. run_service.
  by rewrite (proj2 (list_find_None (owned user account_id) (unit_of_work s)) H).
Qed.

Lemma update_account_missing (user account_id : Z) (data : AccountUpdate)
    (o : commit_outcome) (s : Session) :
  Forall (λ a, ¬ owned user account_id a) (unit_of_work s) →
  update_account user account_id data o s
  = (Raise (HTTPException 404 "Account not found."),
     mkSession (bind s) (unit_of_work s) (calls s ++ [CallQuery])).
Proof.
  intros H. run_service.
  by rewrite (proj2 (list_find_None (owned user account_id) (unit_of_work s)) H).
Qed.

Lemma delete_account_missing (user account_id : Z) (o : commit_outcome) (s : Session) :
  Forall (λ a, ¬ owned user account_id a) (unit_of_work s) →
  delete_account user account_id o s
  = (Raise (HTTPException 404 "Account not found."),
     mkSession (bind s) (unit_of_work s) (calls s ++ [CallQuery])).
Proof.
  intros H. run_service.
  by rewrite (proj2 (list_find_None (owned user account_id) (unit_of_work s)) H).
Qed.

Lemma get_account_by_id_found (user account_id : Z) (s : Session) (i : nat) (row : Account) :
  list_find (owned user account_id) (unit_of_work s) = Some (i, row) →
  get_account_by_id user account_id s
  = (Return row, mkSession (bind s) (unit_of_work s) (calls s ++ [CallQuery])).
Proof.
  intros H. run_service. rewrite H. simpl.
  apply list_find_Some in H as (-> & _). done.
Qed.

(** A commit that inserts nothing keeps every row as the flush left it. *)
Lemma inserted_all (up : bool) (k : nat) (rows : list Account) :
  (length rows ≤ k)%nat → inserted up k rows = rows.
Proof.
  intros Hk. unfold inserted. rewrite take_ge, drop_ge by done.
  by rewrite fmap_nil, app_nil_r.
Qed.

(** After [destruct (flush rows n) as [flushed m] eqn:Hflush], with as many
    rows as the database has: the commit stores [flushed]. *)
Ltac nothing_inserted Hflush :=
  match type of Hflush with
  | flush ?rows ?n = (?flushed, _) =>
      let Hlen := fresh "Hlen" in
      pose proof (flush_length rows n) as Hlen;
      rewrite Hflush in Hlen; simpl in Hlen;
      rewrite ?length_alter in Hlen;
      rewrite !(inserted_all _ _ flushed) by (by rewrite Hlen)
  end.

Lemma delete_account_found (user account_id : Z) (db : Database) (i : nat) (row : Account) :
  list_find (owned user account_id) (accounts db) = Some (i, row) →
  delete_account user account_id Committed (SessionLocal db)
  = (Return (),
     committed_session (SessionLocal db)
       (alter (with_status "closed") i (unit_of_work (SessionLocal db)))
       ((calls (SessionLocal db) ++ [CallQuery]) ++ [CallCommit])).
Proof.
  intros H. run_service. rewrite H. simpl. unfold committed_session. simpl.
  destruct (flush _ _) as [flushed n] eqn:Hflush. simpl.
  by nothing_inserted Hflush.
Qed.

Lemma delete_account_tie_up (user account_id : Z) (db : Database) :
  delete_account user account_id CommittedTieUp (SessionLocal db)
  = delete_account user account_id Committed (SessionLocal db).
Proof.
  run_service. destruct (list_find _ _) as [[i row]|]; simpl; [|done].
  destruct (flush _ _) as [flushed n] eqn:Hflush. simpl.
  by nothing_inserted Hflush.
Qed.

Lemma flush_lookup (rows : list Account) (n : Z) (i : nat) (a : Account) :
  rows !! i = Some a → is_Some (id a) → (flush rows n).1 !! i = Some a.
Proof.
  intros Hi [k Hk].
  destruct (Forall2_lookup_l _ _ _ _ _ (flush_Forall2 rows n) Hi) as (b & Hb & [->|(? & ? & _)]);
    [done|congruence].
Qed.

Lemma apply_update_id (data : AccountUpdate) (a : Account) :
  id (apply_update data a) = id a.
Proof. unfold apply_update. by destruct (update_nickname data), (update_status data). Qed.

Lemma alter_apply_update (data : AccountUpdate) (i : nat) (rows : list Account) :
  alter (apply_update data) i rows
  = match update_status data with
    | Some x => alter (with_status x) i
    | None => λ l, l
    end (match update_nickname data with
         | Some x => alter (with_nickname (Some x)) i rows
         | None => rows
         end).
Proof.
  unfold apply_update.
  destruct (update_nickname data), (update_status data); simpl.
  - by rewrite list_alter_alter_eq.
  - done.
  - done.
  - by apply list_alter_id.
Qed.

Lemma update_account_committed (user account_id : Z) (data : AccountUpdate)
    (db : Database) (i : nat) (row : Account) :
  list_find (owned user account_id) (accounts db) = Some (i, row) →
  (∀ x, update_status data = Some x → x ∈ AccountStatus) →
  update_account user account_id data Committed (SessionLocal db)
  = (Return (apply_update data row),
     committed_session (SessionLocal db)
       (alter (apply_update data) i (unit_of_work (SessionLocal db)))
       (((calls (SessionLocal db) ++ [CallQuery]) ++ [CallCommit]) ++ [CallRefresh])).
Proof.
  intros Hfind Hvalid.
  pose proof Hfind as (Hi & [Hid _] & _)%list_find_Some.
  assert ((flush (alter (apply_update data) i (accounts db)) (next_id db)).1 !! i
          = Some (apply_update data row)) as Hrow.
  { apply flush_lookup.
    - by rewrite list_lookup_alter_eq, Hi.
    - rewrite apply_update_id, Hid. eauto. }
  revert Hrow. unfold committed_session. simpl. rewrite alter_apply_update.
  run_service. rewrite Hfind. simpl.
  destruct (update_nickname data) as [x|], (update_status data) as [y|]; simpl;
    try (rewrite bool_decide_eq_true_2 by (by apply Hvalid));
    simpl; destruct (flush _ _) as [rows n] eqn:Hflush; simpl; intros Hrow;
    nothing_inserted Hflush; rewrite Hrow; simpl;
    rewrite list_insert_id by done; by rewrite Hrow.
Qed.

Lemma update_account_tie_up (user account_id : Z) (data : AccountUpdate) (db : Database) :
  update_account user account_id data CommittedTieUp (SessionLocal db)
  = update_account user account_id data Committed (SessionLocal db).
Proof.
  run_service. destruct (list_find _ _) as [[i row]|]; simpl; [|done].
  destruct (update_nickname data) as [x|], (update_status data) as [y|]; simpl;
    try (destruct (bool_decide _); simpl; [|done]);
    destruct (flush _ _) as [flushed n] eqn:Hflush; simpl;
    by nothing_inserted Hflush.
Qed.

Lemma update_account_request_tie_up (user account_id : Z) (data : AccountUpdate)
    (db : Database) :
  account_router.get_db (update_account user account_id data CommittedTieUp) db
  = account_router.get_db (update_account user account_id data Committed) db.
Proof. unfold account_router.get_db. by rewrite update_account_tie_up. Qed.

Lemma delete_account_request_tie_up (user account_id : Z) (db : Database) :
  account_router.get_db (delete_account user account_id CommittedTieUp) db
  = account_router.get_db (delete_account user account_id Committed) db.
Proof. unfold account_router.get_db. by rewrite delete_account_tie_up. Qed.

Lemma update_account_accounts (user account_id : Z) (data : AccountUpdate)
    (o : commit_outcome) (db : Database) :
  accounts (bind (update_account user account_id data o (SessionLocal db)).2) = accounts db
  ∨ ∃ i, accounts (bind (update_account user account_id data o (SessionLocal db)).2)
         = (flush (alter (apply_update data) i (accounts db)) (next_id db)).1.
Proof.
  assert (∀ i row,
            list_find (owned user account_id) (accounts db) = Some (i, row) →
            accounts (bind (update_account user account_id data Committed (SessionLocal db)).2)
            = accounts db
            ∨ ∃ i, accounts (bind (update_account user account_id data Committed
                                     (SessionLocal db)).2)
                   = (flush (alter (apply_update data) i (accounts db)) (next_id db)).1)
    as Hcommitted.
  { intros i row Hfind.
    destruct (update_status data) as [y|] eqn:Hstatus.
    - destruct (decide (y ∈ AccountStatus)) as [Hy|Hy].
      + right. exists i. rewrite (update_account_committed _ _ _ _ i row); [done..|].
        intros x. rewrite Hstatus. by intros [= <-].
      + left. run_service. rewrite Hfind. simpl. rewrite Hstatus.
        rewrite bool_decide_eq_false_2 by done.
        by destruct (update_nickname data).
    - right. exists i. rewrite (update_account_committed _ _ _ _ i row); [done..|].
      intros x. by rewrite Hstatus. }
  destruct (list_find (owned user account_id) (accounts db)) as [[i row]|] eqn:Hfind.
  2:{ left. apply list_find_None in Hfind. by rewrite update_account_missing. }
  destruct o as [|e|].
  - by apply (Hcommitted i row).
  - left. run_service. rewrite Hfind. simpl.
    destruct (update_nickname data), (update_status data) as [y|]; simpl; try done;
      by destruct (bool_decide _).
  - rewrite update_account_tie_up. by apply (Hcommitted i row).
Qed.

Lemma flush_lookup_new (rows : list Account) (n : Z) (i : nat) (a : Account) :
  rows !! i = Some a → id a = None → ∃ k, (flush rows n).1 !! i = Some (with_id a k).
Proof.
  intros Hi Hid.
  destruct (Forall2_lookup_l _ _ _ _ _ (flush_Forall2 rows n) Hi) as (b & Hb & [->|(k & _ & ->)]).
  - pose proof (flush_is_Some rows n) as Hall.
    rewrite Forall_lookup in Hall. destruct (Hall _ _ Hb) as [? ?]. congruence.
  - eauto.
Qed.

Lemma create_account_invalid_type (user : Z) (data : AccountCreate)
    (o : commit_outcome) (s : Session) :
  MINIMUM_DEPOSITS !! lower (create_account_type data) = None →
  create_account user data o s
  = (Raise (ValueError "Invalid account type. Must be 'checking' or 'savings'."), s).
Proof. intros H. unfold create_account. by rewrite H. Qed.

Lemma create_account_below_minimum (user : Z) (data : AccountCreate)
    (o : commit_outcome) (s : Session) (min_required : Decimal) :
  MINIMUM_DEPOSITS !! lower (create_account_type data) = Some min_required →
  Decimal_ltb (initial_deposit data) min_required = true →
  create_account user data o s
  = (Raise (ValueError ("Minimum deposit for " ++ lower (create_account_type data)
                          ++ " account is $" ++ format_2f min_required ++ ".")), s).
Proof. intros H Hlt. unfold create_account. by rewrite H, Hlt. Qed.

Lemma inserted_lookup_new (up : bool) (k : nat) (rows : list Account) (a : Account) :
  rows !! k = Some a → inserted up k rows !! k = Some (stored_as up a).
Proof.
  intros Hk. pose proof (lookup_lt_Some _ _ _ Hk) as Hlt. unfold inserted.
  rewrite lookup_app_r by (rewrite length_take; lia).
  rewrite length_take, Nat.min_l, Nat.sub_diag by lia.
  by rewrite list_lookup_fmap, lookup_drop, Nat.add_0_r, Hk.
Qed.

Lemma inserted_lookup_old (up : bool) (k : nat) (rows : list Account) (i : nat) :
  (i < k)%nat → inserted up k rows !! i = rows !! i.
Proof.
  intros Hi. destruct (decide (i < length rows)%nat) as [Hlt|Hge].
  - unfold inserted. rewrite lookup_app_l by (rewrite length_take; lia).
    by apply lookup_take_lt.
  - by rewrite inserted_all by lia.
Qed.

Lemma inserted_Forall (P : Account → Prop) (up : bool) (k : nat) (rows : list Account) :
  (∀ a, P a → P (stored_as up a)) → Forall P rows → Forall P (inserted up k rows).
Proof.
  intros HP Hrows. unfold inserted. apply Forall_app. split.
  - by apply Forall_take.
  - apply Forall_fmap. eapply Forall_impl; [by apply Forall_drop|]. done.
Qed.

Lemma inserted_stored (up : bool) (rows : list Account) (a : Account) :
  inserted up (length rows) (rows ++ [a]) = (rows ++ [stored_as up a])%list.
Proof.
  unfold inserted. by rewrite take_app_length, drop_app_length.
Qed.

(** The session and the account a committed [create_account] leaves, for an
    outcome [o] that is not a failure. *)
Lemma create_account_committed (user : Z) (data : AccountCreate) (db : Database)
    (o : commit_outcome) (min_required : Decimal) :
  MINIMUM_DEPOSITS !! lower (create_account_type data) = Some min_required →
  Decimal_ltb (initial_deposit data) min_required = false →
  o = Committed ∨ o = CommittedTieUp →
  let flushed := flush (accounts db ++ [new_account user data]) (next_id db) in
  let rows := inserted (tie_up o) (length (accounts db)) flushed.1 in
  ∃ k,
    rows !! length (accounts db)
    = Some (stored_as (tie_up o) (with_id (new_account user data) k))
    ∧ create_account user data o (SessionLocal db)
      = (Return (stored_as (tie_up o) (with_id (new_account user data) k)),
         mkSession (mkDatabase rows flushed.2) rows [CallAdd; CallCommit; CallRefresh]).
Proof.
  intros H Hlt Ho.
  destruct (flush_lookup_new (accounts db ++ [new_account user data]) (next_id db)
              (length (accounts db)) (new_account user data)) as [k Hk].
  { by rewrite lookup_app_r, Nat.sub_diag. }
  { done. }
  apply (inserted_lookup_new (tie_up o)) in Hk.
  exists k. revert Hk. unfold create_account. rewrite H, Hlt.
  destruct Ho as [-> | ->]; run_service; fold (new_account user data);
    destruct (flush _ _) as [flushed n]; simpl; intros Hk;
    (split; [exact Hk|]);
    rewrite Hk; simpl; rewrite list_insert_id by done; by rewrite Hk.
Qed.

Lemma create_account_integrity_error (user : Z) (data : AccountCreate) (s : Session)
    (min_required : Decimal) :
  MINIMUM_DEPOSITS !! lower (create_account_type data) = Some min_required →
  Decimal_ltb (initial_deposit data) min_required = false →
  create_account user data (Failed IntegrityError) s
  = (Raise (HTTPException 400 "Account could not be created."),
     mkSession (bind s) (accounts (bind s))
       (((calls s ++ [CallAdd]) ++ [CallCommit]) ++ [CallRollback])).
Proof. intros H Hlt. unfold create_account. rewrite H, Hlt. by run_service. Qed.

Lemma create_account_other_error (user : Z) (data : AccountCreate) (s : Session)
    (min_required : Decimal) (e : db_error) :
  MINIMUM_DEPOSITS !! lower (create_account_type data) = Some min_required →
  Decimal_ltb (initial_deposit data) min_required = false →
  e ≠ IntegrityError →
  create_account user data (Failed e) s
  = (Raise (DBAPIError e),
     mkSession (bind s) (accounts (bind s)) ((calls s ++ [CallAdd]) ++ [CallCommit])).
Proof.
  intros H Hlt He. unfold create_account. rewrite H, Hlt. run_service.
  by destruct e.
Qed.

(** The rows a [create_account] leaves in the database. *)
Lemma create_account_accounts (user : Z) (data : AccountCreate) (o : commit_outcome)
    (db : Database) :
  accounts (bind (create_account user data o (SessionLocal db)).2) = accounts db
  ∨ accounts (bind (create_account user data o (SessionLocal db)).2)
    = inserted (tie_up o) (length (accounts db))
        (flush (accounts db ++ [new_account user data]) (next_id db)).1.
Proof.
  destruct (MINIMUM_DEPOSITS !! lower (create_account_type data)) as [m|] eqn:Hm.
  2:{ left. by rewrite create_account_invalid_type. }
  destruct (Decimal_ltb (initial_deposit data) m) eqn:Hlt.
  { left. by rewrite (create_account_below_minimum _ _ _ _ m). }
  destruct o as [|e|].
  - right. destruct (create_account_committed user data db Committed m Hm Hlt)
      as (k & _ & ->); [by left|done].
  - left. destruct (decide (e = IntegrityError)) as [->|He].
    + by rewrite (create_account_integrity_error _ _ _ m).
    + by rewrite (create_account_other_error _ _ _ m).
  - right. destruct (create_account_committed user data db CommittedTieUp m Hm Hlt)
      as (k & _ & ->); [by right|done].
Qed.

(** ** Row-wise relations between the database before and after a request *)

Section row_relation.
Variable R : Account → Account → Prop.
Hypothesis R_refl : ∀ a, R a a.
Hypothesis R_with_id : ∀ a b k, R a b → R a (with_id b k).

Lemma rows_related_refl (rows : list Account) : Forall2 R rows rows.
Proof. induction rows; constructor; auto. Qed.

Lemma flush_related (rows rows' : list Account) (n : Z) :
  Forall2 R rows rows' → Forall2 R rows (flush rows' n).1.
Proof.
  intros H. revert n. induction H as [|a b l k Hab _ IH]; intros n; simpl; [constructor|].
  destruct (id b).
  - specialize (IH n). destruct (flush k n). constructor; auto.
  - specialize (IH (n + 1)). destruct (flush k (n + 1)). constructor; auto.
Qed.

Lemma alter_related (f : Account → Account) (rows : list Account) :
  (∀ a, R a (f a)) → ∀ i, Forall2 R rows (alter f i rows).
Proof.
  intros Hf. induction rows as [|a rows IH]; intros [|i]; cbn;
    constructor; auto using rows_related_refl.
Qed.

Lemma update_account_related (db : Database) (user account_id : Z)
    (data : AccountUpdate) (o : commit_outcome) :
  (∀ a, R a (apply_update data a)) →
  Forall2 R (accounts db)
    (accounts (account_router.get_db (update_account user account_id data o) db).2).
Proof.
  intros Hf. unfold account_router.get_db.
  destruct (update_account_accounts user account_id data o db) as [H|[i H]];
    destruct (update_account _ _ _ _ _) as [r s']; simpl in *; rewrite H.
  - apply rows_related_refl.
  - by apply flush_related, alter_related.
Qed.

Lemma delete_account_related (db : Database) (user account_id : Z) (o : commit_outcome) :
  (∀ a, R a (with_status "closed" a)) →
  Forall2 R (accounts db)
    (accounts (account_router.delete_account user account_id o db).2).
Proof.
  intros Hf. unfold account_router.delete_account, account_router.get_db.
  destruct (list_find (owned user account_id) (accounts db)) as [[i row]|] eqn:Hfind.
  - destruct o as [|e|].
    + rewrite (delete_account_found _ _ _ i row) by done. simpl.
      by apply flush_related, alter_related.
    + run_service. rewrite Hfind. simpl. apply rows_related_refl.
    + rewrite delete_account_tie_up, (delete_account_found _ _ _ i row) by done. simpl.
      by apply flush_related, alter_related.
  - apply list_find_None in Hfind. rewrite delete_account_missing by done.
    apply rows_related_refl.
Qed.
End row_relation.

Lemma rows_related_fmap {B : Type} (f : Account → B) (rows rows' : list Account) :
  Forall2 (λ a b, f a = f b) rows rows' → f <$> rows' = f <$> rows.
Proof. induction 1; simpl; [done|]. f_equal; auto. Qed.

(** ** Stored rows carry a primary key *)

Lemma rows_keep_primary_key (rows rows' : list Account) :
  Forall2 (λ a b, is_Some (id a) → is_Some (id b)) rows rows' →
  Forall (λ a, is_Some (id a)) rows → Forall (λ a, is_Some (id a)) rows'.
Proof.
  induction 1 as [|x y l k Hxy _ IH]; [done|].
  intros [Hx Hl]%Forall_cons. constructor; auto.
Qed.

Lemma serve_stored (db : Database) (req : request) :
  stored db → stored (serve db req).
Proof.
  unfold stored. intros Hdb.
  destruct req as [u data o|u|u a|u a data o|u a o]; simpl.
  - unfold account_router.create_account.
    destruct (validate_AccountCreate data) as [create|]; [|done].
    unfold account_router.get_db.
    destruct (create_account_accounts u create o db) as [H|H];
      destruct (create_account _ _ _ _) as [r s']; simpl in *; rewrite H;
      [done|].
    apply inserted_Forall; [done|apply flush_is_Some].
  - unfold account_router.get_user_accounts. by run_service.
  - unfold account_router.get_account_by_id. run_service.
    destruct (list_find _ _) as [[i row]|]; simpl; [|done].
    by destruct (accounts db !! i).
  - unfold account_router.update_account.
    destruct (validate_AccountUpdate data) as [update|]; [|done].
    unfold account_router.get_db.
    destruct (update_account_accounts u a update o db) as [H|[i H]];
      destruct (update_account _ _ _ _ _) as [r s']; simpl in *; rewrite H;
      [done|apply flush_is_Some].
  - pose proof (delete_account_related (λ a b, is_Some (id a) → is_Some (id b))
                  (λ _ H, H) (λ _ _ _ _, ltac:(simpl; eauto)) db u a o (λ _ H, H)) as Hrel.
    by apply (rows_keep_primary_key (accounts db)).
Qed.

Lemma serve_all_stored (reqs : list request) (db : Database) :
  stored db → stored (serve_all db reqs).
Proof.
  revert db. induction reqs as [|req reqs IH]; intros db Hdb; simpl; [done|].
  by apply IH, serve_stored.
Qed.

(** ** The scenario of the specification, evaluated *)

Example checking_at_minimum :
  create_account 7 (mkAccountCreate "checking" None (mkDecimal 2500 (-2))) Committed
    (SessionLocal (mkDatabase [] 1))
  = (Return (mkAccount (Some 1) 7 "checking" (mkDecimal 2500 (-2)) "active" None),
     mkSession
       (mkDatabase [mkAccount (Some 1) 7 "checking" (mkDecimal 2500 (-2)) "active" None] 2)
       [mkAccount (Some 1) 7 "checking" (mkDecimal 2500 (-2)) "active" None]
       [CallAdd; CallCommit; CallRefresh]).
Proof. vm_compute. reflexivity. Qed.

Example checking_below_minimum :
  create_account 7 (mkAccountCreate "checking" None (mkDecimal 2499 (-2))) Committed
    (SessionLocal (mkDatabase [] 1))
  = (Raise (ValueError "Minimum deposit for checking account is $25.00."),
     SessionLocal (mkDatabase [] 1)).
Proof. vm_compute. reflexivity. Qed.

Example savings_below_minimum :
  create_account 7 (mkAccountCreate "savings" None (mkDecimal 99999 (-3))) Committed
    (SessionLocal (mkDatabase [] 1))
  = (Raise (ValueError "Minimum deposit for savings account is $100.00."),
     SessionLocal (mkDatabase [] 1)).
Proof. vm_compute. reflexivity. Qed.

Example closed_account_leaves_the_list :
  let db := serve_all (mkDatabase [] 1)
              [POST_accounts 7 (mkAccountCreateBody (Value "checking") Omitted
                                  (Value (mkDecimal 2500 (-2)))) Committed;
               DELETE_account 7 1 Committed] in
  account_router.get_user_accounts 7 db = (Return [], db)
  ∧ account_router.get_account_by_id 7 1 db
    = (Return (mkAccount (Some 1) 7 "checking" (mkDecimal 2500 (-2)) "closed" None), db).
Proof. split; vm_compute; reflexivity. Qed.

Example schema_rejects_capitalised_type :
  validate_AccountCreate
    (mkAccountCreateBody (Value "Checking") Omitted (Value (mkDecimal 2500 (-2)))) = None.
Proof. vm_compute. reflexivity. Qed.

(** ** The balance column *)

Lemma Decimal_compare_hundredths (h : Z) (d : Decimal) :
  Decimal_compare (mkDecimal h (-2)) d
  = if 0 <=? exponent d + 2
    then Z.compare h (coefficient d * 10 ^ (exponent d + 2))
    else Z.compare (h * 10 ^ (- (exponent d + 2))) (coefficient d).
Proof.
  unfold Decimal_compare. simpl.
  destruct (Z.leb_spec 0 (exponent d + 2)) as [Hk|Hk].
  - rewrite Z.min_l by lia.
    replace (-2 - -2) with 0 by lia. replace (exponent d - -2) with (exponent d + 2) by lia.
    by rewrite Z.pow_0_r, Z.mul_1_r.
  - rewrite Z.min_r by lia.
    replace (exponent d - exponent d) with 0 by lia.
    replace (-2 - exponent d) with (- (exponent d + 2)) by lia.
    by rewrite Z.pow_0_r, Z.mul_1_r.
Qed.

Lemma Numeric_12_2_exponent (up : bool) (d : Decimal) :
  exponent (Numeric_12_2 up d) = -2.
Proof.
  unfold Numeric_12_2. destruct (0 <=? exponent d + 2); [done|].
  by destruct (Z.compare _ _).
Qed.

(** The hundredths [h] of the stored value, against the scaled coefficient
    [c = h0 * q + r] of the decimal. *)
Lemma Numeric_12_2_cases (up : bool) (d : Decimal) :
  let k := exponent d + 2 in
  (0 ≤ k ∧ Numeric_12_2 up d = mkDecimal (coefficient d * 10 ^ k) (-2))
  ∨ (k < 0 ∧ ∃ q h0 r h,
       q = 10 ^ (- k) ∧ 0 < q ∧ coefficient d = q * h0 + r ∧ 0 ≤ r < q
       ∧ r = coefficient d mod q
       ∧ Numeric_12_2 up d = mkDecimal h (-2)
       ∧ ((h = h0 ∧ 2 * r ≤ q) ∨ (h = h0 + 1 ∧ q ≤ 2 * r))).
Proof.
  intros k. unfold Numeric_12_2. fold k.
  destruct (Z.leb_spec 0 k) as [Hk|Hk]; [by left|right].
  split; [done|].
  set (q := 10 ^ (- k)).
  assert (0 < q) as Hq by (apply Z.pow_pos_nonneg; lia).
  pose proof (Z.div_mod (coefficient d) q) as Hdiv.
  pose proof (Z.mod_pos_bound (coefficient d) q Hq) as Hr.
  exists q, (coefficient d / q), (coefficient d mod q).
  destruct (Z.compare_spec (2 * (coefficient d mod q)) q) as [Heq|Hlt|Hgt].
  - destruct up; eexists; repeat split; try done; try lia.
  - eexists; repeat split; try done; try lia.
  - eexists; repeat split; try done; try lia.
Qed.

(** The stored value equals the decimal exactly when the decimal has at most
    two decimals. *)
Lemma Numeric_12_2_eqb (up : bool) (d : Decimal) :
  Decimal_eqb (Numeric_12_2 up d) d = two_decimals d.
Proof.
  unfold Decimal_eqb, two_decimals.
  destruct (Numeric_12_2_cases up d)
    as [[Hk ->]|(Hk & q & h0 & r & h & -> & Hq & Hc & Hr & -> & -> & Hh)];
    rewrite Decimal_compare_hundredths.
  - destruct (Z.leb_spec 0 (exponent d + 2)); [|lia]. by rewrite Z.compare_refl.
  - destruct (Z.leb_spec 0 (exponent d + 2)); [lia|]. simpl.
    set (q := 10 ^ (- (exponent d + 2))) in *.
    destruct (Z.eqb_spec (coefficient d mod q) 0) as [Hz|Hnz];
      destruct (Z.compare_spec (h * q) (coefficient d)); try done; nia.
Qed.

(** The stored value is less than a hundredth away from the decimal. *)
Lemma Numeric_12_2_near (up : bool) (d : Decimal) :
  Decimal_ltb (mkDecimal (coefficient (Numeric_12_2 up d) - 1) (-2)) d = true
  ∧ Decimal_ltb d (mkDecimal (coefficient (Numeric_12_2 up d) + 1) (-2)) = true.
Proof.
  unfold Decimal_ltb.
  rewrite (Decimal_compare_antisym (mkDecimal (coefficient (Numeric_12_2 up d) + 1) (-2)) d).
  rewrite !Decimal_compare_hundredths.
  destruct (Numeric_12_2_cases up d)
    as [[Hk ->]|(Hk & q & h0 & r & h & -> & Hq & Hc & Hr & -> & -> & Hh)]; simpl.
  - destruct (Z.leb_spec 0 (exponent d + 2)); [|lia].
    split.
    + destruct (Z.compare_spec (coefficient d * 10 ^ (exponent d + 2) - 1)
                  (coefficient d * 10 ^ (exponent d + 2))); try done; lia.
    + destruct (Z.compare_spec (coefficient d * 10 ^ (exponent d + 2) + 1)
                  (coefficient d * 10 ^ (exponent d + 2))); try done; lia.
  - destruct (Z.leb_spec 0 (exponent d + 2)); [lia|].
    set (q := 10 ^ (- (exponent d + 2))) in *.
    split.
    + destruct (Z.compare_spec ((h - 1) * q) (coefficient d)); try done; nia.
    + destruct (Z.compare_spec ((h + 1) * q) (coefficient d)); try done; nia.
Qed.

(** ** Creation *)

Lemma Decimal_not_below (d m : Decimal) :
  Decimal_eqb d m = true ∨ Decimal_ltb m d = true → Decimal_ltb d m = false.
Proof.
  unfold Decimal_eqb, Decimal_ltb. rewrite (Decimal_compare_antisym d m).
  destruct (Decimal_compare d m); simpl; intros [?|?]; done.
Qed.

(** The outcome of a committed [create_account] in a request. *)
Lemma create_account_run (db : Database) (user : Z) (data : AccountCreate)
    (o : commit_outcome) (min_required : Decimal) :
  MINIMUM_DEPOSITS !! lower (create_account_type data) = Some min_required →
  Decimal_ltb (initial_deposit data) min_required = false →
  o = Committed ∨ o = CommittedTieUp →
  ∃ k db',
    account_router.get_db (create_account user data o) db
    = (Return (stored_as (tie_up o) (with_id (new_account user data) k)), db')
    ∧ accounts db' !! length (accounts db)
      = Some (stored_as (tie_up o) (with_id (new_account user data) k)).
Proof.
  intros Hm Hlt Ho. unfold account_router.get_db.
  destruct (create_account_committed user data db o min_required Hm Hlt Ho)
    as (k & Hrow & ->).
  by eexists k, _.
Qed.

(** C1: for an account type [t] of {checking, savings}, whose minimum is 25.00
    for checking and 100.00 for savings, [create_account] raises [ValueError]
    (the service's invalid-argument error) whenever the deposit is below the
    minimum of [t]; a deposit that is not strictly positive is below every
    minimum and is refused by the [AccountCreate] schema as well; with a
    deposit equal to the minimum, or above it, the account is created once
    the database accepts the commit. *)
Theorem create_account_minimum_deposit (t : string) (user : Z) (nick : option string) :
  t ∈ AccountType →
  ∃ minimum,
    MINIMUM_DEPOSITS !! t = Some minimum
    ∧ (t = "checking" → minimum = mkDecimal 2500 (-2))
    ∧ (t = "savings" → minimum = mkDecimal 10000 (-2))
    ∧ (∀ d o s,
         Decimal_ltb d minimum = true →
         create_account user (mkAccountCreate t nick d) o s
         = (Raise (ValueError ("Minimum deposit for " ++ t ++ " account is $"
                                 ++ format_2f minimum ++ ".")), s))
    ∧ (∀ d,
         Decimal_leb d Decimal_zero = true →
         Decimal_ltb d minimum = true
         ∧ ∀ f, validate_AccountCreate (mkAccountCreateBody (Value t) f (Value d)) = None)
    ∧ (∀ d o db,
         Decimal_eqb d minimum = true ∨ Decimal_ltb minimum d = true →
         o = Committed ∨ o = CommittedTieUp →
         ∃ account db',
           account_router.get_db (create_account user (mkAccountCreate t nick d) o) db
           = (Return account, db')
           ∧ account ∈ accounts db'
           ∧ account_type account = t
           ∧ status account = "active").
Proof.
  intros Ht.
  assert (lower t = t ∧ ∃ minimum, MINIMUM_DEPOSITS !! t = Some minimum
          ∧ (t = "checking" → minimum = mkDecimal 2500 (-2))
          ∧ (t = "savings" → minimum = mkDecimal 10000 (-2))
          ∧ 0 < coefficient minimum) as (Hlower & minimum & Hmin & Hc & Hs & Hpos).
  { unfold AccountType in Ht. rewrite !elem_of_cons, elem_of_nil in Ht.
    destruct Ht as [->|[->|[]]]; (split; [done|]); eexists; (split; [reflexivity|]);
      repeat split; done. }
  exists minimum. split; [done|]. split; [done|]. split; [done|].
  split; [|split].
  - intros d o s Hlt.
    rewrite (create_account_below_minimum _ _ _ _ minimum); simpl; by rewrite ?Hlower.
  - intros d Hd. split; [by apply Decimal_nonpositive_below|].
    intros f. unfold validate_AccountCreate. simpl.
    rewrite Decimal_ltb_leb, Hd. simpl. by rewrite andb_false_r.
  - intros d o db Hge%Decimal_not_below Ho.
    destruct (create_account_run db user (mkAccountCreate t nick d) o minimum)
      as (k & db' & Hrun & Hrow); simpl; rewrite ?Hlower; try done.
    eexists _, _. split; [exact Hrun|]. simpl. rewrite Hlower. repeat split; try done.
    apply list_elem_of_lookup. by exists (length (accounts db)).
Qed.

Lemma create_account_minimum_deposit_witness :
  let db := mkDatabase [] 1 in
  let message := "Minimum deposit for checking account is $25.00." in
  "checking" ∈ AccountType
  ∧ MINIMUM_DEPOSITS !! "checking" = Some (mkDecimal 2500 (-2))
  ∧ (Decimal_ltb (mkDecimal 2499 (-2)) (mkDecimal 2500 (-2)) = true
     ∧ create_account 7 (mkAccountCreate "checking" None (mkDecimal 2499 (-2))) Committed
         (SessionLocal db)
       = (Raise (ValueError message), SessionLocal db))
  ∧ (Decimal_leb (mkDecimal (-5) 0) Decimal_zero = true
     ∧ Decimal_ltb (mkDecimal (-5) 0) (mkDecimal 2500 (-2)) = true
     ∧ validate_AccountCreate
         (mkAccountCreateBody (Value "checking") Omitted (Value (mkDecimal (-5) 0))) = None)
  ∧ (Decimal_eqb (mkDecimal 25 0) (mkDecimal 2500 (-2)) = true
     ∧ ∃ account db',
         account_router.get_db
           (create_account 7 (mkAccountCreate "checking" None (mkDecimal 25 0)) Committed) db
         = (Return account, db')
         ∧ account ∈ accounts db'
         ∧ account_type account = "checking"
         ∧ status account = "active").
Proof.
  intros db message.
  assert ("checking" ∈ AccountType) as Ht
    by (apply (bool_decide_unpack _); vm_compute; exact I).
  destruct (create_account_minimum_deposit "checking" 7 None Ht)
    as (minimum & Hm & Hc & _ & Hbelow & Hzero & Hok).
  rewrite (Hc eq_refl) in *. clear Hc.
  assert (Decimal_ltb (mkDecimal 2499 (-2)) (mkDecimal 2500 (-2)) = true) as H1
    by (vm_compute; reflexivity).
  assert (Decimal_leb (mkDecimal (-5) 0) Decimal_zero = true) as H2
    by (vm_compute; reflexivity).
  assert (Decimal_eqb (mkDecimal 25 0) (mkDecimal 2500 (-2)) = true) as H3
    by (vm_compute; reflexivity).
  split; [exact Ht|]. split; [exact Hm|]. split; [|split].
  - split; [exact H1|]. exact (Hbelow _ Committed (SessionLocal db) H1).
  - split; [exact H2|]. destruct (Hzero _ H2) as [Hlt Hschema].
    split; [exact Hlt|]. exact (Hschema Omitted).
  - split; [exact H3|]. exact (Hok _ Committed db (or_introl H3) (or_introl eq_refl)).
Defined.

(** C4, as stated, fails: a deposit of 25.005 is accepted, and the account
    that is stored and returned has the balance 25.00, or 25.01 where the
    database rounds the tie upwards; neither is the deposit. *)
Lemma create_account_rounds_deposit :
  let data := mkAccountCreate "checking" None (mkDecimal 25005 (-3)) in
  let db := mkDatabase [] 1 in
  let low := mkAccount (Some 1) 7 "checking" (mkDecimal 2500 (-2)) "active" None in
  let high := mkAccount (Some 1) 7 "checking" (mkDecimal 2501 (-2)) "active" None in
  account_router.get_db (create_account 7 data Committed) db
  = (Return low, mkDatabase [low] 2)
  ∧ account_router.get_db (create_account 7 data CommittedTieUp) db
    = (Return high, mkDatabase [high] 2)
  ∧ Decimal_eqb (balance low) (initial_deposit data) = false
  ∧ Decimal_eqb (balance high) (initial_deposit data) = false.
Proof. intros data db low high. repeat split; vm_compute; reflexivity. Qed.

(** C4, amended: whenever [create_account] returns, the account it returns is
    the row now stored in the database, its status is [active], and its
    balance is the initial deposit of the request rounded to the two decimals
    of the balance column, whatever else the request carries: the balance is
    less than a hundredth away from the deposit, and it equals the deposit
    exactly when the deposit has at most two decimals. *)
Theorem create_account_active_with_rounded_deposit (db db' : Database) (user : Z)
    (data : AccountCreate) (o : commit_outcome) (account : Account) :
  account_router.get_db (create_account user data o) db = (Return account, db') →
  status account = "active"
  ∧ user_id account = user
  ∧ is_Some (id account)
  ∧ accounts db' !! length (accounts db) = Some account
  ∧ balance account = Numeric_12_2 (tie_up o) (initial_deposit data)
  ∧ exponent (balance account) = -2
  ∧ Decimal_eqb (balance account) (initial_deposit data)
    = two_decimals (initial_deposit data)
  ∧ Decimal_ltb (mkDecimal (coefficient (balance account) - 1) (-2)) (initial_deposit data)
    = true
  ∧ Decimal_ltb (initial_deposit data) (mkDecimal (coefficient (balance account) + 1) (-2))
    = true.
Proof.
  intros Hrun.
  assert (∃ k, account = stored_as (tie_up o) (with_id (new_account user data) k)
               ∧ accounts db' !! length (accounts db) = Some account) as (k & -> & Hrow).
  { destruct (MINIMUM_DEPOSITS !! lower (create_account_type data)) as [m|] eqn:Hm.
    2:{ unfold account_router.get_db in Hrun.
        by rewrite create_account_invalid_type in Hrun. }
    destruct (Decimal_ltb (initial_deposit data) m) eqn:Hlt.
    { unfold account_router.get_db in Hrun.
      by rewrite (create_account_below_minimum _ _ _ _ m) in Hrun. }
    assert (o = Committed ∨ o = CommittedTieUp) as Ho.
    { destruct o as [|e|]; [by left| |by right].
      unfold account_router.get_db in Hrun.
      destruct (decide (e = IntegrityError)) as [->|He].
      - by rewrite (create_account_integrity_error _ _ _ m) in Hrun.
      - by rewrite (create_account_other_error _ _ _ m) in Hrun. }
    destruct (create_account_run db user data o m Hm Hlt Ho) as (k & db1 & Hrun1 & Hrow).
    rewrite Hrun1 in Hrun. injection Hrun as <- <-. exists k. by split. }
  simpl. split; [done|]. split; [done|]. split; [eauto|]. split; [done|].
  split; [done|]. split; [apply Numeric_12_2_exponent|].
  split; [apply Numeric_12_2_eqb|]. apply Numeric_12_2_near.
Qed.

Lemma create_account_active_with_rounded_deposit_witness :
  let data := mkAccountCreate "savings" (Some "Rainy day") (mkDecimal 250 0) in
  let db := mkDatabase [] 1 in
  let account := mkAccount (Some 1) 7 "savings" (mkDecimal 25000 (-2)) "active"
                   (Some "Rainy day") in
  let db' := mkDatabase [account] 2 in
  account_router.get_db (create_account 7 data Committed) db = (Return account, db')
  ∧ status account = "active"
  ∧ user_id account = 7
  ∧ is_Some (id account)
  ∧ accounts db' !! length (accounts db) = Some account
  ∧ balance account = Numeric_12_2 (tie_up Committed) (initial_deposit data)
  ∧ exponent (balance account) = -2
  ∧ Decimal_eqb (balance account) (initial_deposit data)
    = two_decimals (initial_deposit data)
  ∧ Decimal_ltb (mkDecimal (coefficient (balance account) - 1) (-2)) (initial_deposit data)
    = true
  ∧ Decimal_ltb (initial_deposit data) (mkDecimal (coefficient (balance account) + 1) (-2))
    = true.
Proof.
  intros data db account db'.
  assert (account_router.get_db (create_account 7 data Committed) db
          = (Return account, db')) as Hrun by (vm_compute; reflexivity).
  split; [exact Hrun|].
  exact (create_account_active_with_rounded_deposit db db' 7 data Committed account Hrun).
Defined.

(** ** Reading *)

(** C3: [get_user_accounts] returns, and never raises; what it returns are the
    rows of the database, in their order, that belong to the caller and whose
    status is not [closed]: no closed account and no account of another owner
    is among them, and an owner without such accounts receives the empty
    list. *)
Theorem get_user_accounts_open_and_owned (db : Database) (user : Z) :
  ∃ l,
    account_router.get_user_accounts user db = (Return l, db)
    ∧ l `sublist_of` accounts db
    ∧ (∀ a, a ∈ l ↔ a ∈ accounts db ∧ user_id a = user ∧ status a ≠ "closed")
    ∧ ((∀ a, a ∈ accounts db → user_id a = user → status a = "closed") → l = []).
Proof.
  exists (filter (λ a, user_id a = user ∧ status a ≠ "closed") (accounts db)).
  split; [|split; [|split]].
  - unfold account_router.get_user_accounts. run_service. by destruct db.
  - apply sublist_filter.
  - intros a. rewrite list_elem_of_filter. tauto.
  - intros Hnone.
    destruct (filter _ (accounts db)) as [|a l] eqn:Hl; [done|].
    assert (a ∈ filter (λ a, user_id a = user ∧ status a ≠ "closed") (accounts db)) as Ha
      by (rewrite Hl; apply list_elem_of_here).
    apply list_elem_of_filter in Ha as [[Hu Hs] Ha]. destruct Hs. by apply Hnone.
Qed.

Lemma get_user_accounts_open_and_owned_witness :
  let mine := mkAccount (Some 1) 7 "checking" (mkDecimal 2500 (-2)) "active" None in
  let shut := mkAccount (Some 2) 7 "savings" (mkDecimal 10000 (-2)) "closed" None in
  let other := mkAccount (Some 3) 8 "savings" (mkDecimal 10000 (-2)) "frozen" None in
  account_router.get_user_accounts 7 (mkDatabase [mine; shut; other] 4)
  = (Return [mine], mkDatabase [mine; shut; other] 4)
  ∧ account_router.get_user_accounts 9 (mkDatabase [mine; shut; other] 4)
    = (Return [], mkDatabase [mine; shut; other] 4)
  ∧ ∃ l, account_router.get_user_accounts 9 (mkDatabase [mine; shut; other] 4)
         = (Return l, mkDatabase [mine; shut; other] 4)
         ∧ l `sublist_of` [mine; shut; other]
         ∧ (∀ a, a ∈ l ↔ a ∈ [mine; shut; other] ∧ user_id a = 9 ∧ status a ≠ "closed")
         ∧ ((∀ a, a ∈ [mine; shut; other] → user_id a = 9 → status a = "closed") → l = []).
Proof.
  intros mine shut other.
  split; [vm_compute; reflexivity|].
  split; [vm_compute; reflexivity|].
  exact (get_user_accounts_open_and_owned (mkDatabase [mine; shut; other] 4) 9).
Defined.

(** ** Ownership *)

Lemma not_owned_Forall (rows : list Account) (user account_id : Z) :
  (∀ row, row ∈ rows → id row = Some account_id → user_id row ≠ user) →
  Forall (λ a, ¬ owned user account_id a) rows.
Proof.
  intros H. apply Forall_forall. intros a Ha [Hid Hu]. by apply (H a).
Qed.

(** C2: when the account [account_id] exists in the database [db] but belongs
    to another user than the caller, [get_account_by_id], [update_account] and
    [delete_account] each raise the 404 [Account not found.] error, which
    carries nothing of the row, and leave the database as it was; the response
    is the one the caller gets from a database [db'] in which no account has
    this identifier. *)
Theorem foreign_account_not_found (db db' : Database) (user account_id : Z)
    (data : AccountUpdate) (o : commit_outcome) :
  (∃ row, row ∈ accounts db ∧ id row = Some account_id) →
  (∀ row, row ∈ accounts db → id row = Some account_id → user_id row ≠ user) →
  (∀ row, row ∈ accounts db' → id row ≠ Some account_id) →
  (account_router.get_db (get_account_by_id user account_id) db
   = (Raise (HTTPException 404 "Account not found."), db)
   ∧ account_router.get_db (update_account user account_id data o) db
     = (Raise (HTTPException 404 "Account not found."), db)
   ∧ account_router.get_db (delete_account user account_id o) db
     = (Raise (HTTPException 404 "Account not found."), db))
  ∧ (account_router.get_db (get_account_by_id user account_id) db').1
    = (account_router.get_db (get_account_by_id user account_id) db).1
  ∧ (account_router.get_db (update_account user account_id data o) db').1
    = (account_router.get_db (update_account user account_id data o) db).1
  ∧ (account_router.get_db (delete_account user account_id o) db').1
    = (account_router.get_db (delete_account user account_id o) db).1.
Proof.
  intros _ Hforeign Habsent.
  assert (Forall (λ a, ¬ owned user account_id a) (unit_of_work (SessionLocal db))) as Hdb
    by by apply not_owned_Forall.
  assert (Forall (λ a, ¬ owned user account_id a) (unit_of_work (SessionLocal db'))) as Hdb'.
  { apply not_owned_Forall. intros row Hrow Hid. by destruct (Habsent row Hrow). }
  unfold account_router.get_db.
  rewrite !get_account_by_id_missing, !update_account_missing, !delete_account_missing by done.
  simpl. by destruct db.
Qed.

Lemma foreign_account_not_found_witness :
  let theirs := mkAccount (Some 5) 8 "savings" (mkDecimal 90000 (-2)) "active" (Some "Nest egg") in
  let db := mkDatabase [theirs] 6 in
  let db' := mkDatabase [] 6 in
  let data := mkAccountUpdate (Some "Mine now") None in
  (account_router.get_db (get_account_by_id 7 5) db
   = (Raise (HTTPException 404 "Account not found."), db)
   ∧ account_router.get_db (update_account 7 5 data Committed) db
     = (Raise (HTTPException 404 "Account not found."), db)
   ∧ account_router.get_db (delete_account 7 5 Committed) db
     = (Raise (HTTPException 404 "Account not found."), db))
  ∧ (account_router.get_db (get_account_by_id 7 5) db').1
    = (account_router.get_db (get_account_by_id 7 5) db).1
  ∧ (account_router.get_db (update_account 7 5 data Committed) db').1
    = (account_router.get_db (update_account 7 5 data Committed) db).1
  ∧ (account_router.get_db (delete_account 7 5 Committed) db').1
    = (account_router.get_db (delete_account 7 5 Committed) db).1.
Proof.
  intros theirs db db' data.
  apply (foreign_account_not_found db db' 7 5 data Committed).
  - exists theirs. split; [apply list_elem_of_here|reflexivity].
  - intros row Hrow%list_elem_of_singleton _. rewrite Hrow. simpl. done.
  - intros row Hrow. by apply elem_of_nil in Hrow.
Defined.

(** ** Closing *)

Lemma list_find_alter_owned (user account_id : Z) (f : Account → Account)
    (rows : list Account) (i : nat) (row : Account) :
  (∀ a, owned user account_id (f a) ↔ owned user account_id a) →
  list_find (owned user account_id) rows = Some (i, row) →
  list_find (owned user account_id) (alter f i rows) = Some (i, f row).
Proof.
  intros Hf (Hi & Hrow & Hfirst)%list_find_Some. apply list_find_Some.
  split; [|split].
  - by rewrite list_lookup_alter_eq, Hi.
  - by apply Hf.
  - intros j y Hj Hlt. rewrite list_lookup_alter_ne in Hj by lia. by apply (Hfirst j).
Qed.

(** C5: closing is a soft delete and is idempotent.  For an account the
    caller owns, [delete_account] puts [closed] in the status of the row and
    keeps the row, with every other row, in the database; a second
    [delete_account] returns without an error and leaves the database as
    the first one left it; after that [get_account_by_id] still returns the
    row, with status [closed]. *)
Theorem delete_account_idempotent (db : Database) (user account_id : Z) (i : nat)
    (row : Account) :
  stored db →
  list_find (owned user account_id) (accounts db) = Some (i, row) →
  let closed := with_status "closed" row in
  let db1 := mkDatabase (<[i := closed]> (accounts db)) (next_id db) in
  account_router.delete_account user account_id Committed db = (Return (), db1)
  ∧ account_router.delete_account user account_id Committed db1 = (Return (), db1)
  ∧ account_router.get_account_by_id user account_id db1 = (Return closed, db1)
  ∧ status closed = "closed"
  ∧ length (accounts db1) = length (accounts db)
  ∧ id <$> accounts db1 = id <$> accounts db.
Proof.
  intros Hstored Hfind closed db1.
  pose proof Hfind as (Hi & Hrow & _)%list_find_Some.
  assert (alter (with_status "closed") i (accounts db) = <[i := closed]> (accounts db)) as Halter.
  { rewrite list_insert_alter. apply list_alter_ext; [|done].
    intros x. rewrite Hi. by intros [= <-]. }
  assert (stored db1) as Hstored1.
  { unfold stored, db1. simpl. rewrite <- Halter. apply Forall_alter; [done|].
    intros x _. done. }
  assert (list_find (owned user account_id) (accounts db1) = Some (i, closed)) as Hfind1.
  { unfold db1. simpl. rewrite <- Halter. by apply list_find_alter_owned. }
  split; [|split; [|split; [|split; [|split]]]].
  - unfold account_router.delete_account, account_router.get_db.
    rewrite (delete_account_found _ _ _ i row) by done. simpl.
    rewrite Halter, flush_stored by exact Hstored1. done.
  - unfold account_router.delete_account, account_router.get_db.
    rewrite (delete_account_found _ _ _ i closed) by done.
    unfold committed_session, SessionLocal. cbn [unit_of_work bind snd fst].
    assert (alter (with_status "closed") i (accounts db1) = accounts db1) as ->.
    { apply list_find_Some in Hfind1 as (Hi1 & _).
      apply list_eq. intros j. rewrite list_lookup_alter. case_decide; [subst j|done].
      by rewrite Hi1. }
    rewrite flush_stored by exact Hstored1. done.
  - unfold account_router.get_account_by_id, account_router.get_db.
    rewrite (get_account_by_id_found _ _ _ i closed) by done. done.
  - done.
  - unfold db1. simpl. apply length_insert.
  - unfold db1. simpl. rewrite <- Halter.
    rewrite (list_fmap_alter _ (with_status "closed") (λ x, x)); [|by apply Forall_true].
    by rewrite list_alter_id.
Qed.

Lemma delete_account_idempotent_witness :
  let row := mkAccount (Some 1) 7 "checking" (mkDecimal 2500 (-2)) "active" (Some "Main") in
  let other := mkAccount (Some 2) 8 "savings" (mkDecimal 10000 (-2)) "active" None in
  let db := mkDatabase [other; row] 3 in
  let closed := with_status "closed" row in
  let db1 := mkDatabase (<[1%nat := closed]> (accounts db)) (next_id db) in
  (stored db ∧ list_find (owned 7 1) (accounts db) = Some (1%nat, row))
  ∧ account_router.delete_account 7 1 Committed db = (Return (), db1)
  ∧ account_router.delete_account 7 1 Committed db1 = (Return (), db1)
  ∧ account_router.get_account_by_id 7 1 db1 = (Return closed, db1)
  ∧ status closed = "closed"
  ∧ length (accounts db1) = length (accounts db)
  ∧ id <$> accounts db1 = id <$> accounts db.
Proof.
  intros row other db closed db1.
  assert (stored db) as Hstored by (apply (bool_decide_unpack _); vm_compute; exact I).
  assert (list_find (owned 7 1) (accounts db) = Some (1%nat, row)) as Hfind
    by (vm_compute; reflexivity).
  split; [by split|].
  exact (delete_account_idempotent db 7 1 1%nat row Hstored Hfind).
Defined.

(** ** Failing commits *)





(** ** Account types *)

Example type_is_compared_in_lower_case :
  let account := mkAccount (Some 1) 7 "checking" (mkDecimal 2500 (-2)) "active" None in
  create_account 7 (mkAccountCreate "Checking" None (mkDecimal 2500 (-2))) Committed
    (SessionLocal (mkDatabase [] 1))
  = (Return account,
     mkSession (mkDatabase [account] 2) [account] [CallAdd; CallCommit; CallRefresh]).
Proof. vm_compute. reflexivity. Qed.

(** The Kelvin sign is lower-cased to [k], as [str.lower] does. *)
Example kelvin_sign_is_lower_cased :
  lower (String "C" (String "H" (String "E" (String "C"
           (String "226" (String "132" (String "170" "ING")))))))
  = "checking".
Proof. reflexivity. Qed.

(** C7: an account type outside {checking, savings} never leads to an
    account.  The service compares the type in lower case: when the
    lower-cased type is neither [checking] nor [savings], [create_account]
    raises [ValueError] (the service's invalid-argument error) before any
    method of the session is called, so that the session is returned as it
    was received and the database of the request is unchanged.  At the
    endpoint, a type that is not exactly [checking] or [savings] is refused
    by the [AccountCreate] schema before the service is reached, and the
    database is unchanged as well. *)
Theorem create_account_unknown_type (user : Z) (t : string) (nick : option string)
    (d : Decimal) (o : commit_outcome) (s : Session) (db : Database) :
  (lower t ∉ AccountType →
   create_account user (mkAccountCreate t nick d) o s
   = (Raise (ValueError "Invalid account type. Must be 'checking' or 'savings'."), s)
   ∧ account_router.get_db (create_account user (mkAccountCreate t nick d) o) db
     = (Raise (ValueError "Invalid account type. Must be 'checking' or 'savings'."), db))
  ∧ (t ∉ AccountType →
     ∀ f, account_router.create_account user (mkAccountCreateBody (Value t) f (Value d)) o db
          = (Raise RequestValidationError, db)).
Proof.
  split.
  - intros Ht%MINIMUM_DEPOSITS_None. unfold account_router.get_db.
    by rewrite !create_account_invalid_type.
  - intros Ht f. unfold account_router.create_account, validate_AccountCreate. simpl.
    by rewrite bool_decide_eq_false_2.
Qed.

Lemma create_account_unknown_type_witness :
  let db := mkDatabase [] 1 in
  (lower "Brokerage" ∉ AccountType)
  ∧ ("Checking" ∉ AccountType)
  ∧ create_account 7 (mkAccountCreate "Brokerage" None (mkDecimal 500 0)) Committed
      (SessionLocal db)
    = (Raise (ValueError "Invalid account type. Must be 'checking' or 'savings'."),
       SessionLocal db)
  ∧ account_router.create_account 7
      (mkAccountCreateBody (Value "Checking") Omitted (Value (mkDecimal 500 0))) Committed db
    = (Raise RequestValidationError, db).
Proof.
  intros db.
  assert (lower "Brokerage" ∉ AccountType) as Hlower
    by (apply (bool_decide_unpack _); vm_compute; exact I).
  assert ("Checking" ∉ AccountType) as Hexact
    by (apply (bool_decide_unpack _); vm_compute; exact I).
  split; [exact Hlower|]. split; [exact Hexact|]. split.
  - exact (proj1 (proj1 (create_account_unknown_type 7 "Brokerage" None (mkDecimal 500 0)
                           Committed (SessionLocal db) db) Hlower)).
  - exact (proj2 (create_account_unknown_type 7 "Checking" None (mkDecimal 500 0)
                    Committed (SessionLocal db) db) Hexact Omitted).
Defined.

(** ** Where [closed] comes from *)

(** C8, as stated, fails: a PUT that carries [status = "closed"] closes the
    account, without any DELETE. *)
Lemma update_account_closes :
  let row := mkAccount (Some 1) 7 "checking" (mkDecimal 2500 (-2)) "active" None in
  let put := PUT_account 7 1 (mkAccountUpdateBody Omitted (Value "closed")) Committed in
  status row = "active"
  ∧ serve (mkDatabase [row] 2) put = mkDatabase [with_status "closed" row] 2
  ∧ status (with_status "closed" row) = "closed".
Proof. intros row put. repeat split; vm_compute; reflexivity. Qed.

Lemma closed_before_refl (rows : list Account) : closed_before rows rows.
Proof. intros i a' Hi Hs. eauto. Qed.

Lemma closed_before_trans (rows1 rows2 rows3 : list Account) :
  closed_before rows1 rows2 → closed_before rows2 rows3 → closed_before rows1 rows3.
Proof.
  intros H12 H23 i a3 Hi Hs.
  destruct (H23 i a3 Hi Hs) as (a2 & Hi2 & Hs2). eauto.
Qed.

Lemma closed_before_related (rows rows' : list Account) :
  Forall2 (λ a b, status b = "closed" → status a = "closed") rows rows' →
  closed_before rows rows'.
Proof.
  intros H i a' Hi Hs.
  destruct (Forall2_lookup_r _ _ _ _ _ H Hi) as (a & Ha & Hab). eauto.
Qed.

Lemma inserted_related (R : Account → Account → Prop) (up : bool) (k : nat)
    (l rows : list Account) :
  (∀ a b, R a b → R a (stored_as up b)) →
  Forall2 R l rows → Forall2 R l (inserted up k rows).
Proof.
  intros HR Hrel. unfold inserted. rewrite <- (take_drop k l).
  apply Forall2_app; [by apply Forall2_take|].
  apply Forall2_fmap_r. eapply Forall2_impl; [by apply Forall2_drop|]. done.
Qed.

(** In any session, a [create_account] whose checks pass and whose commit
    succeeds returns an account with the type and nickname of the object it
    added. *)
Lemma create_account_returns (user : Z) (data : AccountCreate) (o : commit_outcome)
    (s : Session) (min_required : Decimal) :
  MINIMUM_DEPOSITS !! lower (create_account_type data) = Some min_required →
  Decimal_ltb (initial_deposit data) min_required = false →
  o = Committed ∨ o = CommittedTieUp →
  ∃ account s',
    create_account user data o s = (Return account, s')
    ∧ account_type account = lower (create_account_type data)
    ∧ nickname account = create_nickname data.
Proof.
  intros Hm Hlt Ho.
  assert (Forall2 (λ a b, account_type b = account_type a ∧ nickname b = nickname a)
            (unit_of_work s ++ [new_account user data])
            (inserted (tie_up o) (length (accounts (bind s)))
               (flush (unit_of_work s ++ [new_account user data]) (next_id (bind s))).1))
    as Hrel.
  { apply inserted_related; [done|].
    apply flush_related; [done|]. by apply rows_related_refl. }
  destruct (Forall2_lookup_l _ _ _ (length (unit_of_work s)) (new_account user data) Hrel)
    as (row & Hrow & Htype & Hnick).
  { by rewrite lookup_app_r, Nat.sub_diag. }
  clear Hrel. revert Hrow. unfold create_account. rewrite Hm, Hlt.
  destruct Ho as [-> | ->]; run_service; fold (new_account user data);
    destruct (flush _ _) as [flushed n]; simpl; intros Hrow;
    rewrite Hrow; simpl; rewrite list_insert_id by done; rewrite Hrow;
    by eexists _, _.
Qed.

Lemma create_account_closed_before (db : Database) (user : Z) (data : AccountCreate)
    (o : commit_outcome) :
  closed_before (accounts db)
    (accounts (account_router.get_db (create_account user data o) db).2).
Proof.
  unfold account_router.get_db.
  destruct (create_account_accounts user data o db) as [H|H];
    destruct (create_account _ _ _ _) as [r s']; simpl in *; rewrite H.
  { apply closed_before_refl. }
  intros i a' Hi Hs.
  assert (Forall2 (λ a b, status b = status a) (accounts db ++ [new_account user data])
            (inserted (tie_up o) (length (accounts db))
               (flush (accounts db ++ [new_account user data]) (next_id db)).1)) as Hrel.
  { apply inserted_related; [done|].
    apply flush_related; [done|]. by apply rows_related_refl. }
  destruct (Forall2_lookup_r _ _ _ _ _ Hrel Hi) as (a & Ha & Hab).
  apply lookup_app_Some in Ha as [Ha|[_ Ha]].
  - exists a. split; [done|]. by rewrite <- Hab.
  - apply list_lookup_singleton_Some in Ha as [_ <-]. simpl in Hab. congruence.
Qed.

Lemma serve_closed_before (db : Database) (req : request) :
  requests_closed req = false → closed_before (accounts db) (accounts (serve db req)).
Proof.
  destruct req as [u data o|u|u a|u a data o|u a o]; simpl; intros Hreq.
  - unfold account_router.create_account.
    destruct (validate_AccountCreate data); [|apply closed_before_refl].
    apply create_account_closed_before.
  - unfold account_router.get_user_accounts. run_service. apply closed_before_refl.
  - unfold account_router.get_account_by_id. run_service.
    destruct (list_find _ _) as [[i row]|]; simpl; [|apply closed_before_refl].
    destruct (accounts db !! i); apply closed_before_refl.
  - unfold account_router.update_account, validate_AccountUpdate.
    destruct (body_status data) as [| |x]; try apply closed_before_refl.
    + apply closed_before_related, update_account_related; try done.
      intros row. unfold apply_update. simpl.
      by destruct (optional_with_default (body_nickname data)).
    + destruct (bool_decide (x ∈ AccountStatus)); [|apply closed_before_refl].
      apply closed_before_related, update_account_related; try done.
      intros row. unfold apply_update. simpl.
      apply bool_decide_eq_false in Hreq.
      destruct (optional_with_default (body_nickname data)); simpl; congruence.
  - done.
Qed.

(** C8, amended: [closed] is set on request only, by a DELETE or by a PUT that
    carries [status = "closed"].  Whatever POST, GET and PUT requests the
    application serves, as long as none of them is a PUT carrying
    [status = "closed"], an account that is closed afterwards was closed
    before. *)
Theorem closed_only_on_request (reqs : list request) (db : Database) (i : nat)
    (account : Account) :
  Forall (λ req, requests_closed req = false) reqs →
  accounts (serve_all db reqs) !! i = Some account →
  status account = "closed" →
  ∃ before, accounts db !! i = Some before ∧ status before = "closed".
Proof.
  intros Hreqs. revert i account.
  change (closed_before (accounts db) (accounts (serve_all db reqs))).
  revert db. induction Hreqs as [|req reqs Hreq _ IH]; intros db; simpl.
  - apply closed_before_refl.
  - eapply closed_before_trans; [by apply serve_closed_before|apply IH].
Qed.

Lemma closed_only_on_request_witness :
  let mine := mkAccount (Some 1) 7 "checking" (mkDecimal 2500 (-2)) "closed" None in
  let db := mkDatabase [mine] 2 in
  let reqs := [POST_accounts 7 (mkAccountCreateBody (Value "savings") Null
                                  (Value (mkDecimal 100 0))) Committed;
               PUT_account 7 2 (mkAccountUpdateBody (Value "Spare") (Value "frozen")) Committed;
               GET_accounts 7;
               GET_account 7 1;
               PUT_account 7 1 (mkAccountUpdateBody Omitted Null) Committed] in
  (Forall (λ req, requests_closed req = false) reqs
   ∧ accounts (serve_all db reqs) !! 0%nat = Some mine
   ∧ status mine = "closed")
  ∧ ∃ before, accounts db !! 0%nat = Some before ∧ status before = "closed".
Proof.
  intros mine db reqs.
  assert (Forall (λ req, requests_closed req = false) reqs) as Hreqs
    by (repeat constructor).
  assert (accounts (serve_all db reqs) !! 0%nat = Some mine) as Hrow
    by (vm_compute; reflexivity).
  assert (status mine = "closed") as Hclosed by reflexivity.
  split; [done|].
  exact (closed_only_on_request reqs db 0%nat mine Hreqs Hrow Hclosed).
Defined.

(** ** Updates *)

Lemma update_account_found_committed (db : Database) (user account_id : Z)
    (data : AccountUpdate) (i : nat) (row : Account) :
  stored db →
  list_find (owned user account_id) (accounts db) = Some (i, row) →
  (∀ x, update_status data = Some x → x ∈ AccountStatus) →
  account_router.get_db (update_account user account_id data Committed) db
  = (Return (apply_update data row),
     mkDatabase (<[i := apply_update data row]> (accounts db)) (next_id db)).
Proof.
  intros Hstored Hfind Hvalid.
  pose proof Hfind as (Hi & _)%list_find_Some.
  assert (alter (apply_update data) i (accounts db)
          = <[i := apply_update data row]> (accounts db)) as Halter.
  { rewrite list_insert_alter. apply list_alter_ext; [|done].
    intros x. rewrite Hi. by intros [= <-]. }
  unfold account_router.get_db.
  rewrite (update_account_committed _ _ _ _ i row) by done.
  unfold committed_session, SessionLocal. cbn [unit_of_work bind snd fst].
  rewrite flush_stored; [by rewrite Halter|].
  apply Forall_alter; [done|].
  intros x _ Hx. by rewrite apply_update_id.
Qed.

Lemma update_account_failed (db : Database) (user account_id : Z)
    (data : AccountUpdate) (e : db_error) :
  (account_router.get_db (update_account user account_id data (Failed e)) db).2 = db.
Proof.
  unfold account_router.get_db. run_service.
  destruct (list_find _ _) as [[i row]|]; simpl; [|done].
  destruct (update_nickname data), (update_status data) as [y|]; simpl;
    try destruct (bool_decide _); done.
Qed.

Lemma update_account_keeps_field {B : Type} (f : Account → B) (db : Database)
    (user account_id : Z) (data : AccountUpdate) (o : commit_outcome) :
  (∀ a k, f (with_id a k) = f a) →
  (∀ a, f (apply_update data a) = f a) →
  f <$> accounts (account_router.get_db (update_account user account_id data o) db).2
  = f <$> accounts db.
Proof.
  intros Hid Hf. apply rows_related_fmap, update_account_related; try done.
  intros a b k ->. by rewrite Hid.
Qed.

Lemma apply_update_nickname (data : AccountUpdate) (a : Account) :
  update_nickname data = None → nickname (apply_update data a) = nickname a.
Proof. intros H. unfold apply_update. rewrite H. by destruct (update_status data). Qed.

Lemma apply_update_status (data : AccountUpdate) (a : Account) :
  update_status data = None → status (apply_update data a) = status a.
Proof. intros H. unfold apply_update. rewrite H. by destruct (update_nickname data). Qed.

Lemma apply_update_balance (data : AccountUpdate) (a : Account) :
  balance (apply_update data a) = balance a.
Proof. unfold apply_update. by destruct (update_nickname data), (update_status data). Qed.

(** C9: [update_account] changes the fields the request supplies and no
    other.  No update changes a balance; an update without a status leaves
    every status as it was, and an update without a nickname leaves every
    nickname as it was; an update with neither leaves the database as it was
    and, for an account of the caller, returns the row it found; and an
    update that is committed returns the row it found with the supplied
    nickname and status written over the old ones, and stores that row in
    the place of the old one. *)
Theorem update_account_changes_supplied_fields (db : Database) (user account_id : Z)
    (data : AccountUpdate) (o : commit_outcome) :
  let out := account_router.get_db (update_account user account_id data o) db in
  balance <$> accounts out.2 = balance <$> accounts db
  ∧ (update_status data = None → status <$> accounts out.2 = status <$> accounts db)
  ∧ (update_nickname data = None → nickname <$> accounts out.2 = nickname <$> accounts db)
  ∧ (update_nickname data = None → update_status data = None → stored db →
     out.2 = db
     ∧ ∀ i row, list_find (owned user account_id) (accounts db) = Some (i, row) →
                o = Committed → out.1 = Return row)
  ∧ (∀ i row,
       stored db →
       list_find (owned user account_id) (accounts db) = Some (i, row) →
       (∀ x, update_status data = Some x → x ∈ AccountStatus) →
       o = Committed →
       ∃ row',
         out = (Return row', mkDatabase (<[i := row']> (accounts db)) (next_id db))
         ∧ nickname row' = match update_nickname data with
                           | Some x => Some x
                           | None => nickname row
                           end
         ∧ status row' = default (status row) (update_status data)
         ∧ balance row' = balance row
         ∧ id row' = id row
         ∧ user_id row' = user_id row
         ∧ account_type row' = account_type row).
Proof.
  intros out. split; [|split; [|split; [|split]]].
  - apply update_account_keeps_field; [done|]. apply apply_update_balance.
  - intros Hs. apply update_account_keeps_field; [done|].
    intros a. by apply apply_update_status.
  - intros Hn. apply update_account_keeps_field; [done|].
    intros a. by apply apply_update_nickname.
  - intros Hn Hs Hstored.
    assert (∀ a, apply_update data a = a) as Hid
      by (intros a; unfold apply_update; by rewrite Hn, Hs).
    destruct (list_find (owned user account_id) (accounts db)) as [[i row]|] eqn:Hfind.
    + assert (account_router.get_db (update_account user account_id data Committed) db
              = (Return row, db)) as Hcommitted.
      { rewrite (update_account_found_committed _ _ _ _ i row); try done.
        2:{ intros x. by rewrite Hs. }
        rewrite Hid. apply list_find_Some in Hfind as (Hi & _).
        rewrite list_insert_id by done. by destruct db. }
      destruct o as [|e|].
      * unfold out. rewrite Hcommitted. split; [done|].
        intros i' row' [= <- <-] _. done.
      * split; [apply update_account_failed|]. by intros.
      * unfold out. rewrite update_account_request_tie_up, Hcommitted.
        split; [done|]. by intros.
    + split; [|by intros].
      unfold out, account_router.get_db. apply list_find_None in Hfind.
      by rewrite update_account_missing.
  - intros i row Hstored Hfind Hvalid ->. exists (apply_update data row).
    split; [by apply update_account_found_committed|].
    unfold apply_update.
    by destruct (update_nickname data), (update_status data).
Qed.

Lemma update_account_changes_supplied_fields_witness :
  let row := mkAccount (Some 1) 7 "checking" (mkDecimal 2500 (-2)) "active" (Some "Main") in
  let db := mkDatabase [row] 2 in
  let renamed := mkAccount (Some 1) 7 "checking" (mkDecimal 2500 (-2)) "active" (Some "Bills") in
  (stored db ∧ list_find (owned 7 1) (accounts db) = Some (0%nat, row))
  ∧ account_router.get_db (update_account 7 1 (mkAccountUpdate None None) Committed) db
    = (Return row, db)
  ∧ account_router.get_db (update_account 7 1 (mkAccountUpdate (Some "Bills") None) Committed) db
    = (Return renamed, mkDatabase [renamed] 2).
Proof.
  intros row db renamed.
  assert (stored db) as Hstored by (apply (bool_decide_unpack _); vm_compute; exact I).
  assert (list_find (owned 7 1) (accounts db) = Some (0%nat, row)) as Hfind
    by (vm_compute; reflexivity).
  split; [by split|]. split.
  - destruct (update_account_changes_supplied_fields db 7 1 (mkAccountUpdate None None)
                Committed) as (_ & _ & _ & Hnoop & _).
    destruct (Hnoop eq_refl eq_refl Hstored) as [Hdb Hrow].
    specialize (Hrow 0%nat row Hfind eq_refl).
    destruct (account_router.get_db _ db) as [r db']. simpl in *. by rewrite Hdb, Hrow.
  - destruct (update_account_changes_supplied_fields db 7 1
                (mkAccountUpdate (Some "Bills") None) Committed) as (_ & _ & _ & _ & Hset).
    destruct (Hset 0%nat row Hstored Hfind) as (row' & Hout & Hn & Hs & Hb & Hi & Hu & Ht);
      [by intros|done|].
    rewrite Hout. destruct row'. simpl in *. by subst.
Defined.

(** ** Nicknames *)

Lemma update_account_keeps_nicknames (db : Database) (user account_id : Z)
    (data : AccountUpdate) (o : commit_outcome) (i : nat) (row : Account) :
  accounts db !! i = Some row →
  is_Some (nickname row) →
  ∃ row', accounts (account_router.get_db (update_account user account_id data o) db).2 !! i
          = Some row'
          ∧ is_Some (nickname row').
Proof.
  intros Hi Hnick.
  assert (Forall2 (λ a b, is_Some (nickname a) → is_Some (nickname b)) (accounts db)
            (accounts (account_router.get_db (update_account user account_id data o) db).2))
    as Hrel.
  { apply update_account_related; try done.
    intros a. unfold apply_update.
    destruct (update_nickname data), (update_status data); simpl; eauto. }
  destruct (Forall2_lookup_l _ _ _ _ _ Hrel Hi) as (row' & Hi' & Hkeep). eauto.
Qed.

(** C10: in the body of an update, [nickname: null] and no [nickname] at all
    have the same result, and both keep every nickname as it is.  No body
    makes an update turn a nickname that is set into [None]: the row keeps a
    nickname after every update; a string, the empty one included, is
    written over the old nickname. *)
Theorem update_account_null_nickname (db : Database) (user account_id : Z)
    (st : field string) (o : commit_outcome) :
  account_router.update_account user account_id (mkAccountUpdateBody Null st) o db
  = account_router.update_account user account_id (mkAccountUpdateBody Omitted st) o db
  ∧ nickname <$> accounts (account_router.update_account user account_id
                             (mkAccountUpdateBody Null st) o db).2
    = nickname <$> accounts db
  ∧ (∀ (body : AccountUpdateBody) (i : nat) (row : Account),
       accounts db !! i = Some row →
       is_Some (nickname row) →
       ∃ row', accounts (account_router.update_account user account_id body o db).2 !! i
               = Some row'
               ∧ is_Some (nickname row'))
  ∧ (∀ (x : string) (i : nat) (row : Account),
       stored db →
       list_find (owned user account_id) (accounts db) = Some (i, row) →
       o = Committed →
       ∃ row', account_router.update_account user account_id
                 (mkAccountUpdateBody (Value x) Null) o db
               = (Return row', mkDatabase (<[i := row']> (accounts db)) (next_id db))
               ∧ nickname row' = Some x).
Proof.
  split; [done|]. split; [|split].
  - unfold account_router.update_account, validate_AccountUpdate. simpl.
    destruct st as [| |x]; [done| |destruct (bool_decide _); [|done]].
    + apply update_account_keeps_field; [done|]. intros a. by apply apply_update_nickname.
    + apply update_account_keeps_field; [done|]. intros a. by apply apply_update_nickname.
  - intros body i row Hi Hnick.
    unfold account_router.update_account.
    destruct (validate_AccountUpdate body) as [data|]; [|by eauto].
    by apply (update_account_keeps_nicknames _ _ _ _ _ _ row).
  - intros x i row Hstored Hfind ->.
    unfold account_router.update_account, validate_AccountUpdate. simpl.
    rewrite (update_account_found_committed _ _ _ _ i row) by done.
    eauto.
Qed.

Lemma update_account_null_nickname_witness :
  let row := mkAccount (Some 1) 7 "checking" (mkDecimal 2500 (-2)) "active" (Some "Main") in
  let db := mkDatabase [row] 2 in
  (stored db ∧ list_find (owned 7 1) (accounts db) = Some (0%nat, row))
  ∧ account_router.update_account 7 1 (mkAccountUpdateBody Null Null) Committed db
    = (Return row, db)
  ∧ account_router.update_account 7 1 (mkAccountUpdateBody Null Null) Committed db
    = account_router.update_account 7 1 (mkAccountUpdateBody Omitted Null) Committed db
  ∧ ∃ row', account_router.update_account 7 1
              (mkAccountUpdateBody (Value EmptyString) Null) Committed db
            = (Return row', mkDatabase (<[0%nat := row']> (accounts db)) (next_id db))
            ∧ nickname row' = Some EmptyString.
Proof.
  intros row db.
  assert (stored db) as Hstored by (apply (bool_decide_unpack _); vm_compute; exact I).
  assert (list_find (owned 7 1) (accounts db) = Some (0%nat, row)) as Hfind
    by (vm_compute; reflexivity).
  pose proof (update_account_null_nickname db 7 1 Null Committed) as (Hsame & _ & _ & Hset).
  split; [by split|]. split; [vm_compute; reflexivity|]. split; [exact Hsame|].
  exact (Hset EmptyString 0%nat row Hstored Hfind eq_refl).
Defined.

(** * Further properties of the service and the router *)

(** ** What a request does to a database whose rows are stored *)

Lemma flush_app_new (rows : list Account) (new : Account) (n : Z) :
  Forall (λ a, is_Some (id a)) rows →
  id new = None →
  flush (rows ++ [new]) n = ((rows ++ [with_id new n])%list, n + 1).
Proof.
  intros Hrows Hnew. induction Hrows as [|a rows [k Hk] _ IH]; simpl.
  - by rewrite Hnew.
  - by rewrite Hk, IH.
Qed.

Lemma validate_AccountCreate_Some (body : AccountCreateBody) (data : AccountCreate) :
  validate_AccountCreate body = Some data →
  create_account_type data ∈ AccountType
  ∧ lower (create_account_type data) = create_account_type data
  ∧ Decimal_ltb Decimal_zero (initial_deposit data) = true
  ∧ body_account_type body = Value (create_account_type data)
  ∧ body_initial_deposit body = Value (initial_deposit data)
  ∧ create_nickname data = optional_with_default (body_create_nickname body).
Proof.
  unfold validate_AccountCreate.
  destruct (body_account_type body) as [| |t]; try done.
  destruct (body_initial_deposit body) as [| |d]; try done.
  destruct (bool_decide (t ∈ AccountType)) eqn:Ht; simpl; [|done].
  destruct (Decimal_ltb Decimal_zero d) eqn:Hd; [|done].
  intros [= <-]. simpl. apply bool_decide_eq_true in Ht.
  repeat split; try done.
  unfold AccountType in Ht. rewrite !elem_of_cons, elem_of_nil in Ht.
  by destruct Ht as [->|[->|[]]].
Qed.

Lemma validate_AccountUpdate_Some (body : AccountUpdateBody) (data : AccountUpdate) :
  validate_AccountUpdate body = Some data →
  update_nickname data = optional_with_default (body_nickname body)
  ∧ (∀ x, update_status data = Some x → x ∈ AccountStatus ∧ body_status body = Value x)
  ∧ (update_status data = None → body_status body = Null).
Proof.
  unfold validate_AccountUpdate.
  destruct (body_status body) as [| |x]; try done.
  - intros [= <-]. simpl. repeat split; done.
  - destruct (bool_decide (x ∈ AccountStatus)) eqn:Hx; [|done].
    apply bool_decide_eq_true in Hx. intros [= <-]. simpl.
    split; [done|]. split; [|done]. by intros ? [= <-].
Qed.

Lemma delete_account_found_committed (db : Database) (user account_id : Z)
    (i : nat) (row : Account) :
  stored db →
  list_find (owned user account_id) (accounts db) = Some (i, row) →
  account_router.get_db (delete_account user account_id Committed) db
  = (Return (), mkDatabase (<[i := with_status "closed" row]> (accounts db)) (next_id db)).
Proof.
  intros Hstored Hfind.
  pose proof Hfind as (Hi & _)%list_find_Some.
  assert (alter (with_status "closed") i (accounts db)
          = <[i := with_status "closed" row]> (accounts db)) as Halter.
  { rewrite list_insert_alter. apply list_alter_ext; [|done].
    intros x. rewrite Hi. by intros [= <-]. }
  unfold account_router.get_db.
  rewrite (delete_account_found _ _ _ i row) by done.
  unfold committed_session, SessionLocal. cbn [unit_of_work bind snd fst].
  rewrite flush_stored; [by rewrite Halter|].
  apply Forall_alter; [done|]. by intros x _ Hx.
Qed.

Lemma delete_account_failed (db : Database) (user account_id : Z) (e : db_error) :
  (account_router.get_db (delete_account user account_id (Failed e)) db).2 = db.
Proof.
  unfold account_router.get_db. run_service.
  by destruct (list_find _ _) as [[i row]|].
Qed.

Lemma create_account_stored_committed (db : Database) (user : Z) (data : AccountCreate)
    (o : commit_outcome) (min_required : Decimal) :
  stored db →
  MINIMUM_DEPOSITS !! lower (create_account_type data) = Some min_required →
  Decimal_ltb (initial_deposit data) min_required = false →
  o = Committed ∨ o = CommittedTieUp →
  account_router.get_db (create_account user data o) db
  = (Return (stored_as (tie_up o) (with_id (new_account user data) (next_id db))),
     mkDatabase
       (accounts db ++ [stored_as (tie_up o) (with_id (new_account user data) (next_id db))])
       (next_id db + 1)).
Proof.
  intros Hstored Hm Hlt Ho. unfold account_router.get_db.
  destruct (create_account_committed user data db o min_required Hm Hlt Ho)
    as (k & Hk & Hrun).
  rewrite Hrun. simpl. clear Hrun. revert Hk.
  rewrite flush_app_new by done. simpl. rewrite inserted_stored.
  rewrite lookup_app_r, Nat.sub_diag by done. simpl.
  by intros [= <-].
Qed.

(** A request leaves the database as it is, appends one row for the caller,
    or rewrites one row of the caller without touching its identity, owner,
    type or balance. *)
Lemma serve_cases (db : Database) (req : request) :
  stored db →
  serve db req = db
  ∨ (∃ new, id new = None
            ∧ user_id new = requester req
            ∧ status new = "active"
            ∧ serve db req = mkDatabase (accounts db ++ [with_id new (next_id db)])
                               (next_id db + 1))
  ∨ (∃ i row row', accounts db !! i = Some row
                   ∧ user_id row = requester req
                   ∧ id row' = id row
                   ∧ user_id row' = user_id row
                   ∧ account_type row' = account_type row
                   ∧ balance row' = balance row
                   ∧ serve db req = mkDatabase (<[i := row']> (accounts db)) (next_id db)).
Proof.
  intros Hstored.
  destruct req as [u body o|u|u a|u a body o|u a o]; simpl.
  - unfold account_router.create_account.
    destruct (validate_AccountCreate body) as [data|]; [|by left].
    destruct (MINIMUM_DEPOSITS !! lower (create_account_type data)) as [m|] eqn:Hm.
    2:{ left. unfold account_router.get_db. by rewrite create_account_invalid_type. }
    destruct (Decimal_ltb (initial_deposit data) m) eqn:Hlt.
    { left. unfold account_router.get_db.
      by rewrite (create_account_below_minimum _ _ _ _ m). }
    destruct o as [|e|].
    + right. left. exists (stored_as false (new_account u data)).
      rewrite (create_account_stored_committed _ _ _ _ m) by (done || by left). done.
    + left. unfold account_router.get_db. destruct (decide (e = IntegrityError)) as [->|He].
      * by rewrite (create_account_integrity_error _ _ _ m).
      * by rewrite (create_account_other_error _ _ _ m).
    + right. left. exists (stored_as true (new_account u data)).
      rewrite (create_account_stored_committed _ _ _ _ m) by (done || by right). done.
  - left. unfold account_router.get_user_accounts. run_service. by destruct db.
  - left. unfold account_router.get_account_by_id. run_service.
    destruct (list_find _ _) as [[i row]|]; simpl; [|by destruct db].
    destruct (accounts db !! i); by destruct db.
  - unfold account_router.update_account.
    destruct (validate_AccountUpdate body) as [data|] eqn:Hbody; [|by left].
    apply validate_AccountUpdate_Some in Hbody as (_ & Hvalid & _).
    destruct (list_find (owned u a) (accounts db)) as [[i row]|] eqn:Hfind.
    2:{ left. unfold account_router.get_db. apply list_find_None in Hfind.
        rewrite update_account_missing by done. by destruct db. }
    destruct o as [|e|]; [|left; apply update_account_failed|];
      rewrite ?update_account_request_tie_up;
      right; right; exists i, row, (apply_update data row);
      (rewrite (update_account_found_committed _ _ _ _ i row); try done;
       [|intros x Hx; by destruct (Hvalid x Hx)]);
      apply list_find_Some in Hfind as (Hi & [_ Hu] & _);
      rewrite apply_update_id, apply_update_balance;
      unfold apply_update;
      by destruct (update_nickname data), (update_status data).
  - unfold account_router.delete_account.
    destruct (list_find (owned u a) (accounts db)) as [[i row]|] eqn:Hfind.
    2:{ left. unfold account_router.get_db. apply list_find_None in Hfind.
        rewrite delete_account_missing by done. by destruct db. }
    destruct o as [|e|]; [|left; apply delete_account_failed|];
      rewrite ?delete_account_request_tie_up;
      right; right; exists i, row, (with_status "closed" row);
      rewrite (delete_account_found_committed _ _ _ i row) by done;
      by apply list_find_Some in Hfind as (Hi & [_ Hu] & _).
Qed.

(** ** Primary keys *)

Lemma primary_key_empty (n : Z) : primary_key (mkDatabase [] n).
Proof.
  split; [constructor|]. split; [constructor|].
  intros a k Ha. by apply elem_of_nil in Ha.
Qed.

Lemma fmap_id_insert (rows : list Account) (i : nat) (row row' : Account) :
  rows !! i = Some row → id row' = id row → id <$> <[i := row']> rows = id <$> rows.
Proof.
  intros Hi Hid. rewrite list_fmap_insert, Hid.
  apply list_insert_id. by rewrite list_lookup_fmap, Hi.
Qed.

Lemma serve_primary_key (db : Database) (req : request) :
  primary_key db → primary_key (serve db req).
Proof.
  intros (Hstored & Hnodup & Hbelow).
  destruct (serve_cases db req Hstored)
    as [->|[(new & Hnew & _ & _ & ->)|(i & row & row' & Hi & _ & Hid & _ & _ & _ & ->)]].
  - done.
  - split; [|split]; simpl.
    + apply Forall_app. split; [done|]. repeat constructor. simpl. eauto.
    + rewrite fmap_app. apply NoDup_app. split; [done|]. split; [|apply NoDup_singleton].
      intros k Hk Hin. apply list_elem_of_singleton in Hin. subst k.
      apply list_elem_of_fmap in Hk as (a & Ha & Hin). simpl in Ha.
      specialize (Hbelow a (next_id db) Hin (eq_sym Ha)). lia.
    + intros a k [Ha| ->%list_elem_of_singleton]%elem_of_app Hk.
      * specialize (Hbelow a k Ha Hk). lia.
      * simpl in Hk. injection Hk as <-. lia.
  - split; [|split]; simpl.
    + unfold stored. simpl. rewrite list_insert_alter. apply Forall_alter; [done|].
      intros x Hx _. rewrite Hid. rewrite Hi in Hx. injection Hx as <-.
      unfold stored in Hstored. rewrite Forall_lookup in Hstored. by apply (Hstored i).
    + by rewrite (fmap_id_insert _ _ row).
    + intros a k Ha Hk. apply list_elem_of_lookup in Ha as [j Hj].
      destruct (decide (i = j)) as [->|Hne].
      * rewrite list_lookup_insert_eq in Hj by (by apply lookup_lt_Some in Hi).
        injection Hj as <-. apply (Hbelow row k); [|congruence].
        apply list_elem_of_lookup. eauto.
      * rewrite list_lookup_insert_ne in Hj by done.
        apply (Hbelow a k); [|done]. apply list_elem_of_lookup. eauto.
Qed.

(** X1: the primary key is an invariant of the application.  From a database
    in which every row has a key, no two rows share a key and the sequence is
    above every key, every sequence of requests leads to such a database
    again; the empty database is one. *)
Theorem serve_all_primary_key (reqs : list request) (db : Database) :
  primary_key db → primary_key (serve_all db reqs).
Proof.
  revert db. induction reqs as [|req reqs IH]; intros db Hdb; simpl; [done|].
  by apply IH, serve_primary_key.
Qed.

Lemma serve_all_primary_key_witness :
  let reqs := [POST_accounts 7 (mkAccountCreateBody (Value "checking") Omitted
                                  (Value (mkDecimal 2500 (-2)))) Committed;
               POST_accounts 8 (mkAccountCreateBody (Value "savings") Null
                                  (Value (mkDecimal 100 0))) Committed;
               DELETE_account 7 1 Committed] in
  primary_key (mkDatabase [] 1)
  ∧ id <$> accounts (serve_all (mkDatabase [] 1) reqs) = [Some 1; Some 2]
  ∧ primary_key (serve_all (mkDatabase [] 1) reqs).
Proof.
  intros reqs.
  split; [apply primary_key_empty|]. split; [vm_compute; reflexivity|].
  exact (serve_all_primary_key reqs (mkDatabase [] 1) (primary_key_empty 1)).
Defined.

(** ** What no request changes *)

Lemma serve_keeps_identity (db : Database) (req : request) (i : nat) (a : Account) :
  stored db →
  accounts db !! i = Some a →
  ∃ a', accounts (serve db req) !! i = Some a'
        ∧ id a' = id a
        ∧ user_id a' = user_id a
        ∧ account_type a' = account_type a
        ∧ balance a' = balance a.
Proof.
  intros Hstored Ha.
  destruct (serve_cases db req Hstored)
    as [->|[(new & _ & _ & _ & ->)|(j & row & row' & Hj & _ & Hid & Hu & Ht & Hb & ->)]];
    simpl.
  - eauto 10.
  - exists a. by rewrite lookup_app_l by (by apply lookup_lt_Some in Ha).
  - destruct (decide (j = i)) as [->|Hne].
    + exists row'. rewrite list_lookup_insert_eq by (by apply lookup_lt_Some in Hj).
      rewrite Hj in Ha. injection Ha as <-. done.
    + exists a. by rewrite list_lookup_insert_ne by done.
Qed.

(** X2: no request removes a row or changes an account's identifier, owner,
    type or balance.  After any sequence of requests, a row of the database
    is still at its place, with the same [id], [user_id], [account_type] and
    [balance]. *)
Theorem accounts_keep_identity (reqs : list request) (db : Database) (i : nat)
    (a : Account) :
  stored db →
  accounts db !! i = Some a →
  ∃ a', accounts (serve_all db reqs) !! i = Some a'
        ∧ id a' = id a
        ∧ user_id a' = user_id a
        ∧ account_type a' = account_type a
        ∧ balance a' = balance a.
Proof.
  revert db a. induction reqs as [|req reqs IH]; intros db a Hstored Ha; simpl.
  - eauto 10.
  - destruct (serve_keeps_identity db req i a Hstored Ha)
      as (a1 & Ha1 & Hid & Hu & Ht & Hb).
    destruct (IH (serve db req) a1 (serve_stored db req Hstored) Ha1)
      as (a' & Ha' & Hid' & Hu' & Ht' & Hb').
    exists a'. repeat split; congruence.
Qed.

Lemma accounts_keep_identity_witness :
  let mine := mkAccount (Some 1) 7 "checking" (mkDecimal 2500 (-2)) "active" None in
  let db := mkDatabase [mine] 2 in
  let reqs := [PUT_account 7 1 (mkAccountUpdateBody (Value "Bills") (Value "frozen")) Committed;
               POST_accounts 7 (mkAccountCreateBody (Value "savings") Null
                                  (Value (mkDecimal 100 0))) Committed;
               DELETE_account 7 1 Committed] in
  (stored db ∧ accounts db !! 0%nat = Some mine)
  ∧ accounts (serve_all db reqs) !! 0%nat
    = Some (mkAccount (Some 1) 7 "checking" (mkDecimal 2500 (-2)) "closed" (Some "Bills"))
  ∧ ∃ a', accounts (serve_all db reqs) !! 0%nat = Some a'
          ∧ id a' = id mine
          ∧ user_id a' = user_id mine
          ∧ account_type a' = account_type mine
          ∧ balance a' = balance mine.
Proof.
  intros mine db reqs.
  assert (stored db) as Hstored by (apply (bool_decide_unpack _); vm_compute; exact I).
  assert (accounts db !! 0%nat = Some mine) as Hrow by reflexivity.
  split; [by split|]. split; [vm_compute; reflexivity|].
  exact (accounts_keep_identity reqs db 0%nat mine Hstored Hrow).
Defined.

Lemma serve_leaves_other_owners (db : Database) (req : request) (i : nat) (a : Account) :
  stored db →
  requester req ≠ user_id a →
  accounts db !! i = Some a →
  accounts (serve db req) !! i = Some a.
Proof.
  intros Hstored Hother Ha.
  destruct (serve_cases db req Hstored)
    as [->|[(new & _ & _ & _ & ->)|(j & row & row' & Hj & Hu & _ & _ & _ & _ & ->)]];
    simpl.
  - done.
  - by rewrite lookup_app_l by (by apply lookup_lt_Some in Ha).
  - rewrite list_lookup_insert_ne; [done|].
    intros ->. rewrite Hj in Ha. injection Ha as <-. done.
Qed.

(** X3: a caller's requests never write to another owner's account.  After
    any sequence of requests, none of them made by the owner of a row, the
    row is in the database exactly as it was: nickname, status and balance
    included. *)
Theorem requests_leave_other_owners_rows (reqs : list request) (db : Database)
    (i : nat) (a : Account) :
  stored db →
  Forall (λ req, requester req ≠ user_id a) reqs →
  accounts db !! i = Some a →
  accounts (serve_all db reqs) !! i = Some a.
Proof.
  intros Hstored Hreqs. revert db Hstored.
  induction Hreqs as [|req reqs Hreq _ IH]; intros db Hstored Ha; simpl; [done|].
  apply IH; [by apply serve_stored|by apply serve_leaves_other_owners].
Qed.

Lemma requests_leave_other_owners_rows_witness :
  let theirs := mkAccount (Some 1) 8 "savings" (mkDecimal 90000 (-2)) "active"
                  (Some "Nest egg") in
  let db := mkDatabase [theirs] 2 in
  let reqs := [PUT_account 7 1 (mkAccountUpdateBody (Value "Mine") (Value "closed")) Committed;
               DELETE_account 7 1 Committed;
               POST_accounts 7 (mkAccountCreateBody (Value "checking") Null
                                  (Value (mkDecimal 50 0))) Committed] in
  (stored db
   ∧ Forall (λ req, requester req ≠ user_id theirs) reqs
   ∧ accounts db !! 0%nat = Some theirs)
  ∧ accounts (serve_all db reqs) !! 0%nat = Some theirs.
Proof.
  intros theirs db reqs.
  assert (stored db) as Hstored by (apply (bool_decide_unpack _); vm_compute; exact I).
  assert (Forall (λ req, requester req ≠ user_id theirs) reqs) as Hreqs
    by (repeat constructor; simpl; discriminate).
  assert (accounts db !! 0%nat = Some theirs) as Hrow by reflexivity.
  split; [done|].
  exact (requests_leave_other_owners_rows reqs db 0%nat theirs Hstored Hreqs Hrow).
Defined.

(** ** Creating, listing and fetching *)

(** X4: the account type is stored in lower case.  Whatever the case of the
    type in the request, the account [create_account] returns has the
    lower-cased type, which is [checking] or [savings], and the nickname of
    the request. *)
Theorem create_account_stores_canonical_type (user : Z) (data : AccountCreate)
    (o : commit_outcome) (s s' : Session) (account : Account) :
  create_account user data o s = (Return account, s') →
  account_type account = lower (create_account_type data)
  ∧ account_type account ∈ AccountType
  ∧ nickname account = create_nickname data.
Proof.
  intros Hrun.
  destruct (MINIMUM_DEPOSITS !! lower (create_account_type data)) as [m|] eqn:Hm.
  2:{ by rewrite create_account_invalid_type in Hrun. }
  destruct (Decimal_ltb (initial_deposit data) m) eqn:Hlt.
  { by rewrite (create_account_below_minimum _ _ _ _ m) in Hrun. }
  assert (o = Committed ∨ o = CommittedTieUp) as Ho.
  { destruct o as [|e|]; [by left| |by right].
    destruct (decide (e = IntegrityError)) as [->|He].
    - by rewrite (create_account_integrity_error _ _ _ m) in Hrun.
    - by rewrite (create_account_other_error _ _ _ m) in Hrun. }
  destruct (create_account_returns user data o s m Hm Hlt Ho)
    as (account' & s'' & Hrun' & Htype & Hnick).
  rewrite Hrun' in Hrun. injection Hrun as <- <-.
  split; [done|]. split; [|done]. rewrite Htype.
  destruct (decide (lower (create_account_type data) ∈ AccountType)) as [|Hnot]; [done|].
  apply MINIMUM_DEPOSITS_None in Hnot. congruence.
Qed.

Lemma create_account_stores_canonical_type_witness :
  let type := String "C" (String "H" (String "E" (String "C"
                (String "226" (String "132" (String "170" "ING")))))) in
  let data := mkAccountCreate type (Some "Rainy day") (mkDecimal 250 0) in
  let s := SessionLocal (mkDatabase [] 1) in
  let account := mkAccount (Some 1) 7 "checking" (mkDecimal 25000 (-2)) "active"
                   (Some "Rainy day") in
  let s' := mkSession (mkDatabase [account] 2) [account] [CallAdd; CallCommit; CallRefresh] in
  create_account 7 data Committed s = (Return account, s')
  ∧ account_type account = lower (create_account_type data)
  ∧ account_type account ∈ AccountType
  ∧ nickname account = create_nickname data.
Proof.
  intros type data s account s'.
  assert (create_account 7 data Committed s = (Return account, s')) as Hrun
    by (vm_compute; reflexivity).
  split; [exact Hrun|].
  exact (create_account_stores_canonical_type 7 data Committed s s' account Hrun).
Defined.

Lemma get_user_accounts_filter (user : Z) (db : Database) :
  account_router.get_user_accounts user db
  = (Return (filter (λ a, user_id a = user ∧ status a ≠ "closed") (accounts db)), db).
Proof. unfold account_router.get_user_accounts. run_service. by destruct db. Qed.

Lemma get_account_by_id_run (user account_id : Z) (db : Database) (i : nat) (row : Account) :
  list_find (owned user account_id) (accounts db) = Some (i, row) →
  account_router.get_account_by_id user account_id db = (Return row, db).
Proof.
  intros Hfind. unfold account_router.get_account_by_id, account_router.get_db.
  rewrite (get_account_by_id_found _ _ _ i row) by done. by destruct db.
Qed.

(** X5: an account that was created can be fetched and is listed.  In a
    database with a primary key, a [create_account] that is committed returns
    an account whose identifier is the next value of the sequence;
    [get_account_by_id] with this identifier then returns the same account to
    its owner, and [get_user_accounts] has it in the owner's list. *)
Theorem created_account_can_be_fetched (db : Database) (user : Z) (data : AccountCreate)
    (min_required : Decimal) :
  primary_key db →
  MINIMUM_DEPOSITS !! lower (create_account_type data) = Some min_required →
  Decimal_ltb (initial_deposit data) min_required = false →
  ∃ account db',
    account_router.get_db (create_account user data Committed) db = (Return account, db')
    ∧ id account = Some (next_id db)
    ∧ account_router.get_account_by_id user (next_id db) db' = (Return account, db')
    ∧ ∃ l, account_router.get_user_accounts user db' = (Return l, db') ∧ account ∈ l.
Proof.
  intros (Hstored & _ & Hbelow) Hm Hlt.
  eexists _, _.
  split; [apply (create_account_stored_committed _ _ _ _ min_required); by try left|].
  split; [done|]. split.
  - apply (get_account_by_id_run _ _ _ (length (accounts db))). simpl.
    apply list_find_Some. split; [|split].
    + by rewrite lookup_app_r, Nat.sub_diag.
    + done.
    + intros j y Hj Hlen [Hid _]. rewrite lookup_app_l in Hj by done.
      assert (y ∈ accounts db) as Hy by (apply list_elem_of_lookup; eauto).
      specialize (Hbelow y (next_id db) Hy Hid). lia.
  - eexists. split; [apply get_user_accounts_filter|]. simpl.
    apply list_elem_of_filter. split; [done|].
    apply elem_of_app. right. apply list_elem_of_here.
Qed.

Lemma created_account_can_be_fetched_witness :
  let theirs := mkAccount (Some 1) 8 "savings" (mkDecimal 90000 (-2)) "active" None in
  let db := mkDatabase [theirs] 2 in
  let data := mkAccountCreate "checking" (Some "Main") (mkDecimal 2500 (-2)) in
  (primary_key db
   ∧ MINIMUM_DEPOSITS !! lower (create_account_type data) = Some (mkDecimal 2500 (-2))
   ∧ Decimal_ltb (initial_deposit data) (mkDecimal 2500 (-2)) = false)
  ∧ ∃ account db',
      account_router.get_db (create_account 7 data Committed) db = (Return account, db')
      ∧ id account = Some (next_id db)
      ∧ account_router.get_account_by_id 7 (next_id db) db' = (Return account, db')
      ∧ ∃ l, account_router.get_user_accounts 7 db' = (Return l, db') ∧ account ∈ l.
Proof.
  intros theirs db data.
  assert (primary_key db) as Hkey.
  { split; [apply (bool_decide_unpack _); vm_compute; exact I|].
    split; [apply (bool_decide_unpack _); vm_compute; exact I|].
    intros a k Ha%list_elem_of_singleton Hk. rewrite Ha in Hk. simpl in Hk.
    injection Hk as <-. reflexivity. }
  assert (MINIMUM_DEPOSITS !! lower (create_account_type data)
          = Some (mkDecimal 2500 (-2))) as Hm by (vm_compute; reflexivity).
  assert (Decimal_ltb (initial_deposit data) (mkDecimal 2500 (-2)) = false) as Hlt
    by (vm_compute; reflexivity).
  split; [done|].
  exact (created_account_can_be_fetched db 7 data (mkDecimal 2500 (-2)) Hkey Hm Hlt).
Defined.

Lemma same_key_same_place (rows : list Account) (i j : nat) (x y : Account) :
  NoDup (id <$> rows) → rows !! i = Some x → rows !! j = Some y → id x = id y → i = j.
Proof.
  intros Hnodup Hi Hj Hid.
  apply (NoDup_lookup _ i j (id x) Hnodup); rewrite list_lookup_fmap.
  - by rewrite Hi.
  - by rewrite Hj, Hid.
Qed.

(** X6: what is listed can be fetched.  When no two rows share an
    identifier, every account in the list [get_user_accounts] returns to a
    caller is the account [get_account_by_id] returns to the same caller for
    its identifier. *)
Theorem listed_account_can_be_fetched (db : Database) (user account_id : Z)
    (l : list Account) (a : Account) :
  NoDup (id <$> accounts db) →
  (account_router.get_user_accounts user db).1 = Return l →
  a ∈ l →
  id a = Some account_id →
  account_router.get_account_by_id user account_id db = (Return a, db).
Proof.
  intros Hnodup Hl Ha Hid.
  rewrite get_user_accounts_filter in Hl. simpl in Hl. injection Hl as <-.
  apply list_elem_of_filter in Ha as [[Hu _] Ha].
  destruct (list_find_elem_of (owned user account_id) (accounts db) a Ha) as [[i row] Hfind];
    [done|].
  rewrite (get_account_by_id_run _ _ _ i row) by done.
  apply list_find_Some in Hfind as (Hi & [Hrow _] & _).
  apply list_elem_of_lookup in Ha as [j Hj].
  assert (i = j) as -> by (apply (same_key_same_place (accounts db) i j row a); congruence).
  congruence.
Qed.

Lemma listed_account_can_be_fetched_witness :
  let mine := mkAccount (Some 2) 7 "checking" (mkDecimal 2500 (-2)) "frozen" None in
  let theirs := mkAccount (Some 1) 8 "savings" (mkDecimal 90000 (-2)) "active" None in
  let db := mkDatabase [theirs; mine] 3 in
  (NoDup (id <$> accounts db)
   ∧ (account_router.get_user_accounts 7 db).1 = Return [mine]
   ∧ mine ∈ [mine]
   ∧ id mine = Some 2)
  ∧ account_router.get_account_by_id 7 2 db = (Return mine, db).
Proof.
  intros mine theirs db.
  assert (NoDup (id <$> accounts db)) as Hnodup
    by (apply (bool_decide_unpack _); vm_compute; exact I).
  assert ((account_router.get_user_accounts 7 db).1 = Return [mine]) as Hl
    by (vm_compute; reflexivity).
  assert (mine ∈ [mine]) as Hin by apply list_elem_of_here.
  assert (id mine = Some 2) as Hid by reflexivity.
  split; [done|].
  exact (listed_account_can_be_fetched db 7 2 [mine] mine Hnodup Hl Hin Hid).
Defined.

(** X7: a closed account leaves every list.  When no two rows share an
    identifier, after a committed [delete_account] of an account the caller
    owns, no list returned by [get_user_accounts], to any user, contains an
    account with the identifier of the closed one. *)
Theorem closed_account_not_listed (db : Database) (user account_id reader : Z)
    (i : nat) (row : Account) :
  stored db →
  NoDup (id <$> accounts db) →
  list_find (owned user account_id) (accounts db) = Some (i, row) →
  ∃ db',
    account_router.delete_account user account_id Committed db = (Return (), db')
    ∧ ∃ l, account_router.get_user_accounts reader db' = (Return l, db')
           ∧ ∀ a, a ∈ l → id a ≠ Some account_id.
Proof.
  intros Hstored Hnodup Hfind.
  eexists. split; [by apply (delete_account_found_committed _ _ _ i row)|].
  eexists. split; [apply get_user_accounts_filter|]. simpl.
  intros a [[_ Hopen] Ha]%list_elem_of_filter Hid.
  apply list_find_Some in Hfind as (Hi & [Hrow _] & _).
  apply list_elem_of_lookup in Ha as [j Hj].
  destruct (decide (i = j)) as [->|Hne].
  - rewrite list_lookup_insert_eq in Hj by (by apply lookup_lt_Some in Hi).
    injection Hj as <-. by apply Hopen.
  - rewrite list_lookup_insert_ne in Hj by done.
    apply Hne, (same_key_same_place (accounts db) i j row a); congruence.
Qed.

Lemma closed_account_not_listed_witness :
  let mine := mkAccount (Some 1) 7 "checking" (mkDecimal 2500 (-2)) "active" None in
  let spare := mkAccount (Some 2) 7 "savings" (mkDecimal 10000 (-2)) "active" None in
  let db := mkDatabase [mine; spare] 3 in
  (stored db
   ∧ NoDup (id <$> accounts db)
   ∧ list_find (owned 7 1) (accounts db) = Some (0%nat, mine))
  ∧ (account_router.get_user_accounts 7
       (account_router.delete_account 7 1 Committed db).2).1 = Return [spare]
  ∧ ∃ db',
      account_router.delete_account 7 1 Committed db = (Return (), db')
      ∧ ∃ l, account_router.get_user_accounts 7 db' = (Return l, db')
             ∧ ∀ a, a ∈ l → id a ≠ Some 1.
Proof.
  intros mine spare db.
  assert (stored db) as Hstored by (apply (bool_decide_unpack _); vm_compute; exact I).
  assert (NoDup (id <$> accounts db)) as Hnodup
    by (apply (bool_decide_unpack _); vm_compute; exact I).
  assert (list_find (owned 7 1) (accounts db) = Some (0%nat, mine)) as Hfind
    by (vm_compute; reflexivity).
  split; [done|]. split; [vm_compute; reflexivity|].
  exact (closed_account_not_listed db 7 1 7 0%nat mine Hstored Hnodup Hfind).
Defined.

(** X8: a closed account can be reopened.  A committed [update_account] that
    carries a valid status other than [closed] gives the account this status
    whatever its status was, [closed] included, and the account is then in
    its owner's list. *)
Theorem reopened_account_is_listed (db : Database) (user account_id : Z)
    (data : AccountUpdate) (x : string) (i : nat) (row : Account) :
  stored db →
  list_find (owned user account_id) (accounts db) = Some (i, row) →
  update_status data = Some x →
  x ∈ AccountStatus →
  x ≠ "closed" →
  ∃ row' db',
    account_router.get_db (update_account user account_id data Committed) db
    = (Return row', db')
    ∧ status row' = x
    ∧ ∃ l, account_router.get_user_accounts user db' = (Return l, db') ∧ row' ∈ l.
Proof.
  intros Hstored Hfind Hx Hvalid Hopen.
  eexists _, _. split.
  { apply (update_account_found_committed _ _ _ _ i row); try done.
    intros y. rewrite Hx. by intros [= <-]. }
  apply list_find_Some in Hfind as (Hi & [_ Hu] & _).
  assert (status (apply_update data row) = x) as Hstatus.
  { unfold apply_update. rewrite Hx. by destruct (update_nickname data). }
  split; [done|].
  eexists. split; [apply get_user_accounts_filter|]. simpl.
  apply list_elem_of_filter. split.
  - split; [|by rewrite Hstatus].
    unfold apply_update. rewrite Hx. by destruct (update_nickname data).
  - apply list_elem_of_lookup. exists i.
    by rewrite list_lookup_insert_eq by (by apply lookup_lt_Some in Hi).
Qed.

Lemma reopened_account_is_listed_witness :
  let shut := mkAccount (Some 1) 7 "checking" (mkDecimal 2500 (-2)) "closed" None in
  let db := mkDatabase [shut] 2 in
  let data := mkAccountUpdate None (Some "active") in
  (stored db
   ∧ list_find (owned 7 1) (accounts db) = Some (0%nat, shut)
   ∧ update_status data = Some "active"
   ∧ "active" ∈ AccountStatus
   ∧ "active" ≠ "closed")
  ∧ (account_router.get_user_accounts 7 db).1 = Return []
  ∧ ∃ row' db',
      account_router.get_db (update_account 7 1 data Committed) db = (Return row', db')
      ∧ status row' = "active"
      ∧ ∃ l, account_router.get_user_accounts 7 db' = (Return l, db') ∧ row' ∈ l.
Proof.
  intros shut db data.
  assert (stored db) as Hstored by (apply (bool_decide_unpack _); vm_compute; exact I).
  assert (list_find (owned 7 1) (accounts db) = Some (0%nat, shut)) as Hfind
    by (vm_compute; reflexivity).
  assert (update_status data = Some "active") as Hx by reflexivity.
  assert ("active" ∈ AccountStatus) as Hvalid
    by (apply (bool_decide_unpack _); vm_compute; exact I).
  assert ("active" ≠ "closed") as Hopen by discriminate.
  split; [done|]. split; [vm_compute; reflexivity|].
  exact (reopened_account_is_listed db 7 1 data "active" 0%nat shut
           Hstored Hfind Hx Hvalid Hopen).
Defined.

(** ** Updates, once more *)

(** X9: an update with a status outside [active], [frozen] and [closed] is
    refused with the 400 [Invalid status.] and writes nothing.  The nickname
    of the same update is assigned to the object before the status is
    looked at, but no commit follows, and the database of the request stays
    as it was. *)
Theorem update_account_invalid_status (db : Database) (user account_id : Z)
    (data : AccountUpdate) (o : commit_outcome) (x : string) (i : nat) (row : Account) :
  list_find (owned user account_id) (accounts db) = Some (i, row) →
  update_status data = Some x →
  x ∉ AccountStatus →
  update_account user account_id data o (SessionLocal db)
  = (Raise (HTTPException 400 "Invalid status."),
     mkSession db
       (match update_nickname data with
        | Some n => <[i := with_nickname (Some n) row]> (accounts db)
        | None => accounts db
        end)
       [CallQuery])
  ∧ account_router.get_db (update_account user account_id data o) db
    = (Raise (HTTPException 400 "Invalid status."), db).
Proof.
  intros Hfind Hx Hinvalid.
  assert (update_account user account_id data o (SessionLocal db)
          = (Raise (HTTPException 400 "Invalid status."),
             mkSession db
               (match update_nickname data with
                | Some n => <[i := with_nickname (Some n) row]> (accounts db)
                | None => accounts db
                end)
               [CallQuery])) as Hrun.
  { run_service. rewrite Hfind. simpl. rewrite Hx.
    rewrite bool_decide_eq_false_2 by done.
    apply list_find_Some in Hfind as (Hi & _).
    destruct (update_nickname data) as [n|]; simpl; [|done].
    do 2 f_equal. rewrite list_insert_alter. apply list_alter_ext; [|done].
    intros y. rewrite Hi. by intros [= <-]. }
  split; [done|]. unfold account_router.get_db. by rewrite Hrun.
Qed.

Lemma update_account_invalid_status_witness :
  let mine := mkAccount (Some 1) 7 "checking" (mkDecimal 2500 (-2)) "active" None in
  let db := mkDatabase [mine] 2 in
  let data := mkAccountUpdate (Some "Bills") (Some "dormant") in
  (list_find (owned 7 1) (accounts db) = Some (0%nat, mine)
   ∧ update_status data = Some "dormant"
   ∧ "dormant" ∉ AccountStatus)
  ∧ update_account 7 1 data Committed (SessionLocal db)
    = (Raise (HTTPException 400 "Invalid status."),
       mkSession db [with_nickname (Some "Bills") mine] [CallQuery])
  ∧ account_router.get_db (update_account 7 1 data Committed) db
    = (Raise (HTTPException 400 "Invalid status."), db).
Proof.
  intros mine db data.
  assert (list_find (owned 7 1) (accounts db) = Some (0%nat, mine)) as Hfind
    by (vm_compute; reflexivity).
  assert (update_status data = Some "dormant") as Hx by reflexivity.
  assert ("dormant" ∉ AccountStatus) as Hinvalid
    by (apply (bool_decide_unpack _); vm_compute; exact I).
  split; [done|].
  exact (update_account_invalid_status db 7 1 data Committed "dormant" 0%nat mine
           Hfind Hx Hinvalid).
Defined.

Lemma apply_update_twice (data : AccountUpdate) (a : Account) :
  apply_update data (apply_update data a) = apply_update data a.
Proof.
  unfold apply_update.
  by destruct (update_nickname data), (update_status data).
Qed.

Lemma list_find_insert_owned (user account_id : Z) (rows : list Account) (i : nat)
    (row row' : Account) :
  owned user account_id row' →
  list_find (owned user account_id) rows = Some (i, row) →
  list_find (owned user account_id) (<[i := row']> rows) = Some (i, row').
Proof.
  intros Hrow' (Hi & _ & Hfirst)%list_find_Some. apply list_find_Some.
  split; [|split].
  - by rewrite list_lookup_insert_eq by (by apply lookup_lt_Some in Hi).
  - done.
  - intros j y Hj Hlt. rewrite list_lookup_insert_ne in Hj by lia. by apply (Hfirst j).
Qed.

(** X10: an update is idempotent.  When an update of an account the caller
    owns has been committed, the same update committed once more returns the
    same account and leaves the database as the first one left it. *)
Theorem update_account_idempotent (db : Database) (user account_id : Z)
    (data : AccountUpdate) (i : nat) (row : Account) :
  stored db →
  list_find (owned user account_id) (accounts db) = Some (i, row) →
  (∀ x, update_status data = Some x → x ∈ AccountStatus) →
  ∃ row' db',
    account_router.get_db (update_account user account_id data Committed) db
    = (Return row', db')
    ∧ account_router.get_db (update_account user account_id data Committed) db'
      = (Return row', db').
Proof.
  intros Hstored Hfind Hvalid.
  eexists _, _. split; [by apply (update_account_found_committed _ _ _ _ i row)|].
  pose proof Hfind as (Hi & [Hid Hu] & _)%list_find_Some.
  rewrite (update_account_found_committed _ _ _ _ i (apply_update data row)); try done.
  - simpl. by rewrite apply_update_twice, list_insert_insert_eq.
  - unfold stored. simpl. rewrite list_insert_alter. apply Forall_alter; [done|].
    intros y Hy _. rewrite apply_update_id. rewrite Hi in Hy. injection Hy as <-.
    rewrite Hid. eauto.
  - simpl. apply (list_find_insert_owned _ _ _ _ row); [|done].
    split; [by rewrite apply_update_id|].
    unfold apply_update. by destruct (update_nickname data), (update_status data).
Qed.

Lemma update_account_idempotent_witness :
  let mine := mkAccount (Some 1) 7 "checking" (mkDecimal 2500 (-2)) "active" None in
  let db := mkDatabase [mine] 2 in
  let data := mkAccountUpdate (Some "Bills") (Some "frozen") in
  let after := mkAccount (Some 1) 7 "checking" (mkDecimal 2500 (-2)) "frozen" (Some "Bills") in
  (stored db
   ∧ list_find (owned 7 1) (accounts db) = Some (0%nat, mine)
   ∧ ∀ x, update_status data = Some x → x ∈ AccountStatus)
  ∧ account_router.get_db (update_account 7 1 data Committed) db
    = (Return after, mkDatabase [after] 2)
  ∧ ∃ row' db',
      account_router.get_db (update_account 7 1 data Committed) db = (Return row', db')
      ∧ account_router.get_db (update_account 7 1 data Committed) db' = (Return row', db').
Proof.
  intros mine db data after.
  assert (stored db) as Hstored by (apply (bool_decide_unpack _); vm_compute; exact I).
  assert (list_find (owned 7 1) (accounts db) = Some (0%nat, mine)) as Hfind
    by (vm_compute; reflexivity).
  assert (∀ x, update_status data = Some x → x ∈ AccountStatus) as Hvalid.
  { intros x [= <-]. apply (bool_decide_unpack _). vm_compute. exact I. }
  split; [done|]. split; [vm_compute; reflexivity|].
  exact (update_account_idempotent db 7 1 data 0%nat mine Hstored Hfind Hvalid).
Defined.

(** X11: closing is an update.  In every database and for every outcome of
    the commit, [delete_account] leaves the database that [update_account]
    leaves when it is given the status [closed] and no nickname; both raise
    the same 404 when the caller owns no such account. *)
Theorem delete_account_is_update_to_closed (db : Database) (user account_id : Z)
    (o : commit_outcome) :
  (account_router.get_db (delete_account user account_id o) db).2
  = (account_router.get_db
       (update_account user account_id (mkAccountUpdate None (Some "closed")) o) db).2
  ∧ (Forall (λ a, ¬ owned user account_id a) (accounts db) →
     (account_router.get_db (delete_account user account_id o) db).1
     = Raise (HTTPException 404 "Account not found.")
     ∧ (account_router.get_db
          (update_account user account_id (mkAccountUpdate None (Some "closed")) o) db).1
       = Raise (HTTPException 404 "Account not found.")).
Proof.
  split.
  - destruct (list_find (owned user account_id) (accounts db)) as [[i row]|] eqn:Hfind.
    + destruct o as [|e|]; [|by rewrite delete_account_failed, update_account_failed|];
        unfold account_router.get_db;
        rewrite ?delete_account_tie_up, ?update_account_tie_up;
        rewrite (delete_account_found _ _ _ i row) by done;
        (rewrite (update_account_committed _ _ _ _ i row); [done|done|]);
        intros x [= <-]; apply (bool_decide_unpack _); vm_compute; exact I.
    + apply list_find_None in Hfind. unfold account_router.get_db.
      by rewrite delete_account_missing, update_account_missing.
  - intros Hnone. unfold account_router.get_db.
    by rewrite delete_account_missing, update_account_missing.
Qed.

Lemma delete_account_is_update_to_closed_witness :
  let mine := mkAccount (Some 1) 7 "checking" (mkDecimal 2500 (-2)) "active" None in
  let db := mkDatabase [mine] 2 in
  (account_router.get_db (delete_account 7 1 Committed) db).2
  = mkDatabase [with_status "closed" mine] 2
  ∧ (account_router.get_db (delete_account 7 1 Committed) db).2
    = (account_router.get_db
         (update_account 7 1 (mkAccountUpdate None (Some "closed")) Committed) db).2
  ∧ (Forall (λ a, ¬ owned 8 1 a) (accounts db)
     ∧ (account_router.get_db (delete_account 8 1 Committed) db).1
       = Raise (HTTPException 404 "Account not found.")).
Proof.
  intros mine db.
  split; [vm_compute; reflexivity|].
  split; [exact (proj1 (delete_account_is_update_to_closed db 7 1 Committed))|].
  assert (Forall (λ a, ¬ owned 8 1 a) (accounts db)) as Hnone
    by (apply (bool_decide_unpack _); vm_compute; exact I).
  split; [done|].
  exact (proj1 (proj2 (delete_account_is_update_to_closed db 8 1 Committed) Hnone)).
Defined.

(** ** The endpoints: schema and service together *)

Lemma update_account_found_failed (db : Database) (user account_id : Z)
    (data : AccountUpdate) (e : db_error) (i : nat) (row : Account) :
  list_find (owned user account_id) (accounts db) = Some (i, row) →
  (∀ x, update_status data = Some x → x ∈ AccountStatus) →
  account_router.get_db (update_account user account_id data (Failed e)) db
  = (Raise (DBAPIError e), db).
Proof.
  intros Hfind Hvalid. unfold account_router.get_db. run_service. rewrite Hfind. simpl.
  destruct (update_nickname data), (update_status data) as [y|]; simpl;
    try (rewrite bool_decide_eq_true_2 by (by apply Hvalid)); simpl; by destruct db.
Qed.

(** X12: the outcomes of POST /accounts.  A body the [AccountCreate] schema
    refuses ends in a validation error.  For a body it accepts, the type is
    in the table of minimum deposits, so the service never raises its
    invalid-type error; the request ends in the minimum-deposit error when
    the deposit is below the minimum, in a new row with the next identifier
    when the commit succeeds, in the 400 [Account could not be created.] on
    an [IntegrityError], and in the store's own error otherwise.  The new
    row and the account returned carry the deposit as the balance column
    keeps it, rounded to two decimals.  Every error leaves the database as
    it was. *)
Theorem router_create_account_outcomes (db : Database) (user : Z)
    (body : AccountCreateBody) (o : commit_outcome) :
  stored db →
  let out := account_router.create_account user body o db in
  out.1 ≠ Raise (ValueError "Invalid account type. Must be 'checking' or 'savings'.")
  ∧ ((validate_AccountCreate body = None ∧ out = (Raise RequestValidationError, db))
     ∨ ∃ data min_required,
         validate_AccountCreate body = Some data
         ∧ MINIMUM_DEPOSITS !! create_account_type data = Some min_required
         ∧ ((Decimal_ltb (initial_deposit data) min_required = true
             ∧ out = (Raise (ValueError ("Minimum deposit for " ++ create_account_type data
                                           ++ " account is $" ++ format_2f min_required
                                           ++ ".")), db))
            ∨ (Decimal_ltb (initial_deposit data) min_required = false
               ∧ (((o = Committed ∨ o = CommittedTieUp)
                   ∧ ∃ account,
                       out = (Return account,
                              mkDatabase (accounts db ++ [account]) (next_id db + 1))
                       ∧ id account = Some (next_id db)
                       ∧ user_id account = user
                       ∧ account_type account = create_account_type data
                       ∧ balance account = Numeric_12_2 (tie_up o) (initial_deposit data)
                       ∧ exponent (balance account) = -2
                       ∧ status account = "active")
                  ∨ (o = Failed IntegrityError
                     ∧ out = (Raise (HTTPException 400 "Account could not be created."), db))
                  ∨ (∃ e, e ≠ IntegrityError ∧ o = Failed e
                          ∧ out = (Raise (DBAPIError e), db)))))).
Proof.
  intros Hstored out. unfold out, account_router.create_account.
  destruct (validate_AccountCreate body) as [data|] eqn:Hbody; [|split; [done|by left]].
  apply validate_AccountCreate_Some in Hbody as (Ht & Hlower & _).
  destruct (MINIMUM_DEPOSITS !! create_account_type data) as [m|] eqn:Hm.
  2:{ apply MINIMUM_DEPOSITS_None in Hm. done. }
  assert (MINIMUM_DEPOSITS !! lower (create_account_type data) = Some m) as Hm'
    by by rewrite Hlower.
  destruct (Decimal_ltb (initial_deposit data) m) eqn:Hlt.
  { unfold account_router.get_db.
    rewrite (create_account_below_minimum _ _ _ _ m), Hlower by done. simpl.
    split; [done|]. right. exists data, m. split; [done|]. split; [done|]. by left. }
  assert (o = Committed ∨ o = CommittedTieUp ∨ ∃ e, o = Failed e) as [Ho|[Ho|[e ->]]]
    by (destruct o; eauto).
  1, 2: rewrite (create_account_stored_committed _ _ _ _ m) by auto;
    (split; [done|]); right; exists data, m; (split; [done|]); (split; [done|]);
    right; (split; [done|]); left; (split; [auto|]);
    eexists; (split; [done|]); simpl; rewrite Hlower, Numeric_12_2_exponent; done.
  unfold account_router.get_db. destruct (decide (e = IntegrityError)) as [->|He].
  - rewrite (create_account_integrity_error _ _ _ m) by done. simpl.
    split; [done|]. right. exists data, m. split; [done|]. split; [done|].
    right. split; [done|]. right. left. by destruct db.
  - rewrite (create_account_other_error _ _ _ m) by done. simpl.
    split; [done|]. right. exists data, m. split; [done|]. split; [done|].
    right. split; [done|]. right. right. exists e. by destruct db.
Qed.

Lemma router_create_account_outcomes_witness :
  let db := mkDatabase [] 1 in
  let body := mkAccountCreateBody (Value "savings") Omitted (Value (mkDecimal 250 0)) in
  let account := mkAccount (Some 1) 7 "savings" (mkDecimal 25000 (-2)) "active" None in
  let out := account_router.create_account 7 body Committed db in
  stored db
  ∧ out = (Return account, mkDatabase [account] 2)
  ∧ out.1 ≠ Raise (ValueError "Invalid account type. Must be 'checking' or 'savings'.").
Proof.
  intros db body account out.
  assert (stored db) as Hstored by constructor.
  split; [done|]. split; [vm_compute; reflexivity|].
  exact (proj1 (router_create_account_outcomes db 7 body Committed Hstored)).
Defined.

(** X13: the outcomes of PUT /accounts/{id}.  A body the [AccountUpdate]
    schema refuses ends in a validation error.  For a body it accepts, the
    status is one of the three the service knows, so the service never raises
    its 400 [Invalid status.]; the request ends in the 404 when the caller
    owns no such account, in the updated row when the commit succeeds, and in
    the store's own error when it fails.  Every error leaves the database as
    it was. *)
Theorem router_update_account_outcomes (db : Database) (user account_id : Z)
    (body : AccountUpdateBody) (o : commit_outcome) :
  stored db →
  let out := account_router.update_account user account_id body o db in
  out.1 ≠ Raise (HTTPException 400 "Invalid status.")
  ∧ ((validate_AccountUpdate body = None ∧ out = (Raise RequestValidationError, db))
     ∨ ∃ data,
         validate_AccountUpdate body = Some data
         ∧ ((list_find (owned user account_id) (accounts db) = None
             ∧ out = (Raise (HTTPException 404 "Account not found."), db))
            ∨ ∃ i row,
                list_find (owned user account_id) (accounts db) = Some (i, row)
                ∧ (((o = Committed ∨ o = CommittedTieUp)
                    ∧ out = (Return (apply_update data row),
                             mkDatabase (<[i := apply_update data row]> (accounts db))
                               (next_id db)))
                   ∨ ∃ e, o = Failed e ∧ out = (Raise (DBAPIError e), db)))).
Proof.
  intros Hstored out. unfold out, account_router.update_account.
  destruct (validate_AccountUpdate body) as [data|] eqn:Hbody; [|split; [done|by left]].
  apply validate_AccountUpdate_Some in Hbody as (_ & Hvalid & _).
  assert (∀ x, update_status data = Some x → x ∈ AccountStatus) as Hvalid'
    by (intros x Hx; by destruct (Hvalid x Hx)).
  destruct (list_find (owned user account_id) (accounts db)) as [[i row]|] eqn:Hfind.
  - assert (o = Committed ∨ o = CommittedTieUp ∨ ∃ e, o = Failed e) as [Ho|[Ho|[e ->]]]
      by (destruct o; eauto).
    1, 2: assert (account_router.get_db (update_account user account_id data o) db
                  = account_router.get_db (update_account user account_id data Committed) db)
            as -> by (rewrite Ho; done || apply update_account_request_tie_up);
      rewrite (update_account_found_committed _ _ _ _ i row) by done;
      (split; [done|]); right; exists data; (split; [done|]); right; exists i, row;
      (split; [done|]); left; auto.
    rewrite (update_account_found_failed _ _ _ _ _ i row) by done.
    split; [done|]. right. exists data. split; [done|]. right. exists i, row.
    split; [done|]. right. by exists e.
  - pose proof Hfind as Hnone%list_find_None. unfold account_router.get_db.
    rewrite update_account_missing by done. simpl.
    split; [done|]. right. exists data. split; [done|]. left. by destruct db.
Qed.

Lemma router_update_account_outcomes_witness :
  let mine := mkAccount (Some 1) 7 "checking" (mkDecimal 2500 (-2)) "active" None in
  let db := mkDatabase [mine] 2 in
  let body := mkAccountUpdateBody (Value "Bills") (Value "dormant") in
  let out := account_router.update_account 7 1 body Committed db in
  stored db
  ∧ out = (Raise RequestValidationError, db)
  ∧ out.1 ≠ Raise (HTTPException 400 "Invalid status.").
Proof.
  intros mine db body out.
  assert (stored db) as Hstored by (apply (bool_decide_unpack _); vm_compute; exact I).
  split; [done|]. split; [vm_compute; reflexivity|].
  exact (proj1 (router_update_account_outcomes db 7 1 body Committed Hstored)).
Defined.

(** ** The deposit as a number *)

Lemma create_account_passed (user : Z) (data : AccountCreate) (o : commit_outcome)
    (s s' : Session) (min_required : Decimal) (msg : string) :
  MINIMUM_DEPOSITS !! lower (create_account_type data) = Some min_required →
  Decimal_ltb (initial_deposit data) min_required = false →
  create_account user data o s ≠ (Raise (ValueError msg), s').
Proof.
  intros Hm Hlt.
  assert (o = Committed ∨ o = CommittedTieUp → create_account user data o s
                                               ≠ (Raise (ValueError msg), s')) as Hcommitted.
  { intros Ho.
    by destruct (create_account_returns user data o s min_required Hm Hlt Ho)
      as (account & s'' & -> & _). }
  destruct o as [|e|]; [apply Hcommitted; by left| |apply Hcommitted; by right].
  destruct (decide (e = IntegrityError)) as [->|He].
  - by rewrite (create_account_integrity_error _ _ _ min_required).
  - by rewrite (create_account_other_error _ _ _ min_required).
Qed.

(** X14: the minimum-deposit check looks at the amount, not at the way it
    is written.  A deposit written with one more trailing zero ([25.0] for
    [25], [25.00] for [25.0]) is refused by [create_account] with a
    [ValueError] exactly when the shorter one is, and with the same text. *)
Theorem deposit_check_ignores_trailing_zeros (user : Z) (t : string)
    (nick : option string) (c e : Z) (o : commit_outcome) (s : Session) (msg : string) :
  create_account user (mkAccountCreate t nick (mkDecimal (10 * c) (e - 1))) o s
  = (Raise (ValueError msg), s)
  ↔ create_account user (mkAccountCreate t nick (mkDecimal c e)) o s
    = (Raise (ValueError msg), s).
Proof.
  destruct (MINIMUM_DEPOSITS !! lower t) as [m|] eqn:Hm.
  2:{ by rewrite !create_account_invalid_type. }
  assert (Decimal_ltb (mkDecimal (10 * c) (e - 1)) m = Decimal_ltb (mkDecimal c e) m) as Hsame
    by (unfold Decimal_ltb; by rewrite Decimal_compare_rescale).
  destruct (Decimal_ltb (mkDecimal c e) m) eqn:Hlt.
  - by rewrite !(create_account_below_minimum _ _ _ _ m).
  - split; intros Hrun; exfalso;
      eapply (create_account_passed _ _ _ _ _ m); try exact Hrun; done.
Qed.

Lemma deposit_check_ignores_trailing_zeros_witness :
  let s := SessionLocal (mkDatabase [] 1) in
  let msg := "Minimum deposit for savings account is $100.00." in
  create_account 7 (mkAccountCreate "savings" None (mkDecimal 999 (-1))) Committed s
  = (Raise (ValueError msg), s)
  ∧ create_account 7 (mkAccountCreate "savings" None (mkDecimal 9990 (-2))) Committed s
    = (Raise (ValueError msg), s).
Proof.
  intros s msg.
  assert (create_account 7 (mkAccountCreate "savings" None (mkDecimal 999 (-1))) Committed s
          = (Raise (ValueError msg), s)) as Hrun by (vm_compute; reflexivity).
  split; [exact Hrun|].
  exact (proj2 (deposit_check_ignores_trailing_zeros 7 "savings" None 999 (-1) Committed s msg)
           Hrun).
Defined.

(** ** Reading after writing, and other callers *)

(** X15: an update can be read back.  After a committed [update_account] of
    an account the caller owns, [get_account_by_id] returns to the caller
    the very account the update returned. *)
Theorem updated_account_can_be_fetched (db : Database) (user account_id : Z)
    (data : AccountUpdate) (i : nat) (row : Account) :
  stored db →
  list_find (owned user account_id) (accounts db) = Some (i, row) →
  (∀ x, update_status data = Some x → x ∈ AccountStatus) →
  ∃ row' db',
    account_router.get_db (update_account user account_id data Committed) db
    = (Return row', db')
    ∧ account_router.get_account_by_id user account_id db' = (Return row', db').
Proof.
  intros Hstored Hfind Hvalid.
  eexists _, _. split; [by apply (update_account_found_committed _ _ _ _ i row)|].
  apply (get_account_by_id_run _ _ _ i). simpl.
  apply (list_find_insert_owned _ _ _ _ row); [|done].
  apply list_find_Some in Hfind as (_ & [Hid Hu] & _).
  split; [by rewrite apply_update_id|].
  unfold apply_update. by destruct (update_nickname data), (update_status data).
Qed.

Lemma updated_account_can_be_fetched_witness :
  let mine := mkAccount (Some 1) 7 "checking" (mkDecimal 2500 (-2)) "active" None in
  let db := mkDatabase [mine] 2 in
  let data := mkAccountUpdate (Some "Bills") None in
  let after := mkAccount (Some 1) 7 "checking" (mkDecimal 2500 (-2)) "active" (Some "Bills") in
  (stored db
   ∧ list_find (owned 7 1) (accounts db) = Some (0%nat, mine)
   ∧ ∀ x, update_status data = Some x → x ∈ AccountStatus)
  ∧ account_router.get_account_by_id 7 1
      (account_router.get_db (update_account 7 1 data Committed) db).2
    = (Return after, mkDatabase [after] 2)
  ∧ ∃ row' db',
      account_router.get_db (update_account 7 1 data Committed) db = (Return row', db')
      ∧ account_router.get_account_by_id 7 1 db' = (Return row', db').
Proof.
  intros mine db data after.
  assert (stored db) as Hstored by (apply (bool_decide_unpack _); vm_compute; exact I).
  assert (list_find (owned 7 1) (accounts db) = Some (0%nat, mine)) as Hfind
    by (vm_compute; reflexivity).
  assert (∀ x, update_status data = Some x → x ∈ AccountStatus) as Hvalid
    by (intros x; discriminate).
  split; [done|]. split; [vm_compute; reflexivity|].
  exact (updated_account_can_be_fetched db 7 1 data 0%nat mine Hstored Hfind Hvalid).
Defined.

Lemma filter_insert_other (P : Account → Prop) `{!∀ a, Decision (P a)}
    (rows : list Account) (i : nat) (row row' : Account) :
  rows !! i = Some row → ¬ P row → ¬ P row' →
  filter P (<[i := row']> rows) = filter P rows.
Proof.
  revert i. induction rows as [|a rows IH]; intros [|i] Hi Hrow Hrow'; simpl in *; try done.
  - injection Hi as ->. by rewrite !(filter_cons_False _ _ _) by done.
  - destruct (decide (P a)).
    + rewrite !filter_cons_True by done. f_equal. by apply IH.
    + rewrite !filter_cons_False by done. by apply IH.
Qed.

Lemma serve_keeps_list (db : Database) (req : request) (user : Z) :
  stored db →
  requester req ≠ user →
  (account_router.get_user_accounts user (serve db req)).1
  = (account_router.get_user_accounts user db).1.
Proof.
  intros Hstored Hother. rewrite !get_user_accounts_filter. simpl. f_equal.
  destruct (serve_cases db req Hstored)
    as [->|[(new & _ & Hu & _ & ->)|(j & row & row' & Hj & Hu & _ & Hu' & _ & _ & ->)]];
    simpl.
  - done.
  - rewrite filter_app, filter_cons_False, filter_nil, app_nil_r; [done|].
    simpl. intros [? _]. congruence.
  - apply (filter_insert_other _ _ _ row); [done| |]; intros [? _]; congruence.
Qed.

(** X16: a caller's list does not depend on what other callers do.  After
    any sequence of requests, none of them made by a given user, the list
    [get_user_accounts] returns to this user is the list it returned
    before: the accounts other callers create, update or close never show
    up in it. *)
Theorem list_unaffected_by_other_callers (reqs : list request) (db : Database)
    (user : Z) :
  stored db →
  Forall (λ req, requester req ≠ user) reqs →
  (account_router.get_user_accounts user (serve_all db reqs)).1
  = (account_router.get_user_accounts user db).1.
Proof.
  intros Hstored Hreqs. revert db Hstored.
  induction Hreqs as [|req reqs Hreq _ IH]; intros db Hstored; [done|].
  change (serve_all db (req :: reqs)) with (serve_all (serve db req) reqs).
  rewrite IH by (by apply serve_stored). by apply serve_keeps_list.
Qed.

Lemma list_unaffected_by_other_callers_witness :
  let mine := mkAccount (Some 1) 7 "checking" (mkDecimal 2500 (-2)) "active" None in
  let theirs := mkAccount (Some 2) 8 "savings" (mkDecimal 10000 (-2)) "active" None in
  let db := mkDatabase [mine; theirs] 3 in
  let reqs := [POST_accounts 8 (mkAccountCreateBody (Value "checking") Null
                                  (Value (mkDecimal 50 0))) Committed;
               PUT_account 8 1 (mkAccountUpdateBody (Value "Taken") (Value "closed")) Committed;
               DELETE_account 8 2 Committed;
               DELETE_account 8 1 Committed] in
  (stored db ∧ Forall (λ req, requester req ≠ 7) reqs)
  ∧ (account_router.get_user_accounts 7 db).1 = Return [mine]
  ∧ (account_router.get_user_accounts 7 (serve_all db reqs)).1
    = (account_router.get_user_accounts 7 db).1.
Proof.
  intros mine theirs db reqs.
  assert (stored db) as Hstored by (apply (bool_decide_unpack _); vm_compute; exact I).
  assert (Forall (λ req, requester req ≠ 7) reqs) as Hreqs
    by (repeat constructor; simpl; discriminate).
  split; [done|]. split; [vm_compute; reflexivity|].
  exact (list_unaffected_by_other_callers reqs db 7 Hstored Hreqs).
Defined.
